(** * The ETL pipeline of [dags/extract_transform_load.py]

    A shallow embedding of the four task callables ([extract_data],
    [transform_data], [load_data], [validate_pipeline]) and of the dependency
    declaration [extract_task >> transform_task >> load_task >> validate_task].

    - A data frame is the list of its rows. The raw rows have the five columns
      [extract_data] writes; [purchase_amount] is a [float64] column, so an
      amount is an IEEE binary64 number (Rocq's primitive floats, NaN
      included), and [purchase_date] is the cell as text.
    - The two CSV files and the SQLite file live in a [Storage] record; a CSV
      file holds the rows written to it (the text encoding is not modelled).
      The XCom table of a DAG run is a finite map from (task id, key) to the
      pushed integer.
    - A task is a state-and-exception computation over a [World]: what it
      changed before raising stays changed.
    - [pd.to_datetime] is a parameter (one cell to one timestamp, or an
      exception); [parse_iso_date] is the instance used in the examples.
    - Airflow's scheduler is the [Runner] module. *)

From Stdlib Require Import ZArith Ascii Floats.
From stdpp Require Import gmap strings list pretty relations.

Set Warnings "-inexact-float".

Open Scope string_scope.

(** ** Data model *)

(** One row of the frame built at lines 42-50 and read back at line 69. *)
Record RawRow := mkRaw {
  customer_id : Z;
  customer_name : string;
  purchase_amount : float;
  purchase_date : string;
  region : string
}.

(** What [pd.to_datetime] yields for one cell; [.dt.month] and [.dt.year]
    read its fields. *)
Record Timestamp := mkTs {
  ts_year : Z;
  ts_month : Z;
  ts_day : Z
}.

(** One row of the frame after lines 72-87, in column order. *)
Record DerivedRow := mkDerived {
  d_customer_id : Z;
  d_customer_name : string;
  d_purchase_amount : float;
  d_purchase_date : Timestamp;
  d_region : string;
  tax_amount : float;
  total_amount : float;
  month : Z;
  year : Z;
  purchase_category : string
}.

(** Lines 25-28. *)
Definition DATA_DIR : string := "/tmp/airflow_data".
Definition RAW_DATA_PATH : string := DATA_DIR +:+ "/raw_data.csv".
Definition TRANSFORMED_DATA_PATH : string := DATA_DIR +:+ "/transformed_data.csv".
Definition DB_PATH : string := DATA_DIR +:+ "/etl_database.db".

(** The durable state the tasks touch: the data directory, the two CSV files
    (absent, or the rows they hold) and the tables of the SQLite file. *)
Record Storage := mkStorage {
  data_dir : bool;
  raw_data : option (list RawRow);
  transformed_data : option (list DerivedRow);
  database : gmap string (list DerivedRow)
}.

(** XCom rows of one DAG run, keyed by (task id, key). *)
Abbreviation XCom := (gmap (string * string) Z).

Record World := mkWorld {
  storage : Storage;
  xcom : XCom;
  stdout : list string
}.

Inductive exn :=
  | FileNotFoundError (path : string)
  | DateParseError (cell : string)
  | ValueError (msg : string).

(** ** Tasks: state and exceptions *)

Definition Task (A : Type) : Type := World → World * (exn + A).

#[global] Instance task_ret : MRet Task := λ A a w, (w, inr a).

#[global] Instance task_bind : MBind Task := λ A B k m w,
  match m w with
  | (w', inr a) => k a w'
  | (w', inl e) => (w', inl e)
  end.

Definition raise {A} (e : exn) : Task A := λ w, (w, inl e).

Definition get_storage : Task Storage := λ w, (w, inr (storage w)).

Definition put_storage (s : Storage) : Task unit :=
  λ w, (mkWorld s (xcom w) (stdout w), inr tt).

Definition print (line : string) : Task unit :=
  λ w, (mkWorld (storage w) (xcom w) (stdout w ++ [line])%list, inr tt).

(** [ti.xcom_push(key=..., value=...)] of the task instance [ti]. *)
Definition xcom_push (ti key : string) (value : Z) : Task unit :=
  λ w, (mkWorld (storage w) (<[(ti, key) := value]> (xcom w)) (stdout w), inr tt).

(** [ti.xcom_pull(key=..., task_ids=...)]: [None] when nothing was pushed. *)
Definition xcom_pull (key task_ids : string) : Task (option Z) :=
  λ w, (w, inr (xcom w !! (task_ids, key))).

(** [os.makedirs(DATA_DIR, exist_ok=True)] *)
Definition makedirs : Task unit :=
  s ← get_storage;
  put_storage (mkStorage true (raw_data s) (transformed_data s) (database s)).

(** [df.to_csv(RAW_DATA_PATH, index=False)]: the file is rewritten. *)
Definition to_csv_raw (df : list RawRow) : Task unit :=
  s ← get_storage;
  put_storage (mkStorage (data_dir s) (Some df) (transformed_data s) (database s)).

(** [df.to_csv(TRANSFORMED_DATA_PATH, index=False)] *)
Definition to_csv_transformed (df : list DerivedRow) : Task unit :=
  s ← get_storage;
  put_storage (mkStorage (data_dir s) (raw_data s) (Some df) (database s)).

(** [pd.read_csv(RAW_DATA_PATH)] *)
Definition read_csv_raw : Task (list RawRow) :=
  s ← get_storage;
  match raw_data s with
  | Some df => mret df
  | None => raise (FileNotFoundError RAW_DATA_PATH)
  end.

(** [pd.read_csv(TRANSFORMED_DATA_PATH)] *)
Definition read_csv_transformed : Task (list DerivedRow) :=
  s ← get_storage;
  match transformed_data s with
  | Some df => mret df
  | None => raise (FileNotFoundError TRANSFORMED_DATA_PATH)
  end.

(** ** Extract (lines 31-56) *)

Definition sample_data : list RawRow :=
  [ mkRaw 1 "John Doe" 150.50 "2024-01-01" "North";
    mkRaw 2 "Jane Smith" 200.00 "2024-01-02" "South";
    mkRaw 3 "Bob Johnson" 75.25 "2024-01-03" "East";
    mkRaw 4 "Alice Brown" 300.75 "2024-01-04" "West";
    mkRaw 5 "Charlie Wilson" 125.00 "2024-01-05" "North" ].

Definition extract_data (ti : string) : Task unit :=
  print "Starting data extraction...";;
  makedirs;;
  let df := sample_data in
  to_csv_raw df;;
  print ("Extracted " +:+ pretty (length df) +:+ " records to " +:+ RAW_DATA_PATH);;
  xcom_push ti "extracted_records" (Z.of_nat (length df)).

(** ** Transform (lines 59-95) *)

(** Line 86: the lambda applied to every purchase amount. *)
Definition categorize (x : float) : string :=
  if (200 <? x)%float then "High"
  else if (100 <? x)%float then "Medium"
  else "Low".

(** Lines 75-87 on one row whose date cell was converted to [d]. *)
Definition derive (r : RawRow) (d : Timestamp) : DerivedRow :=
  let tax := (purchase_amount r * 0.10)%float in
  let total := (purchase_amount r + tax)%float in
  mkDerived (customer_id r) (customer_name r) (purchase_amount r) d (region r)
            tax total (ts_month d) (ts_year d) (categorize (purchase_amount r)).

Section Transform.

(** [pd.to_datetime] on one cell: the timestamp, or [None] when pandas
    raises. *)
Variable to_datetime : string → option Timestamp.

(** Line 72: the whole column is converted, the first cell that does not
    parse raises. *)
Fixpoint to_datetime_series (cells : list string) : exn + list Timestamp :=
  match cells with
  | [] => inr []
  | c :: cs =>
      match to_datetime c with
      | None => inl (DateParseError c)
      | Some t =>
          match to_datetime_series cs with
          | inl e => inl e
          | inr ts => inr (t :: ts)
          end
      end
  end.

Definition transform_data (ti : string) : Task unit :=
  print "Starting data transformation...";;
  df ← read_csv_raw;
  match to_datetime_series (purchase_date <$> df) with
  | inl e => raise e
  | inr dates =>
      let df := zip_with derive df dates in
      to_csv_transformed df;;
      print ("Transformed " +:+ pretty (length df) +:+ " records to "
             +:+ TRANSFORMED_DATA_PATH);;
      xcom_push ti "transformed_records" (Z.of_nat (length df))
  end.

End Transform.

(** ** Load (lines 98-124) *)

(** pandas' [if_exists] argument of [DataFrame.to_sql]. *)
Inductive if_exists := IfFail | IfReplace | IfAppend.

(** [df.to_sql(name, conn, if_exists=..., index=False)] on the tables of the
    connection. *)
Definition to_sql (mode : if_exists) (name : string) (df : list DerivedRow)
    (db : gmap string (list DerivedRow)) : exn + gmap string (list DerivedRow) :=
  match db !! name, mode with
  | Some _, IfFail => inl (ValueError ("Table '" +:+ name +:+ "' already exists."))
  | Some old, IfAppend => inr (<[name := (old ++ df)%list]> db)
  | _, _ => inr (<[name := df]> db)
  end.

(** [SELECT COUNT( * ) FROM name], then [fetchone()[0]]. *)
Definition select_count (name : string) (db : gmap string (list DerivedRow)) : exn + Z :=
  match db !! name with
  | Some rows => inr (Z.of_nat (length rows))
  | None => inl (ValueError ("no such table: " +:+ name))
  end.

Definition lift {A} (r : exn + A) : Task A :=
  match r with
  | inl e => raise e
  | inr a => mret a
  end.

Definition put_database (db : gmap string (list DerivedRow)) : Task unit :=
  s ← get_storage;
  put_storage (mkStorage (data_dir s) (raw_data s) (transformed_data s) db).

(** [load_data] with the write of line 112 left open, to tell a count read
    back from the store from a count of the frame. *)
Definition load_data_with
    (write : string → list DerivedRow → gmap string (list DerivedRow) →
             exn + gmap string (list DerivedRow))
    (ti : string) : Task unit :=
  print "Starting data loading...";;
  df ← read_csv_transformed;
  s ← get_storage;
  conn ← lift (write "customer_purchases" df (database s));
  put_database conn;;
  s ← get_storage;
  count ← lift (select_count "customer_purchases" (database s));
  print ("Loaded " +:+ pretty count +:+ " records into database at " +:+ DB_PATH);;
  xcom_push ti "loaded_records" count.

Definition load_data : string → Task unit := load_data_with (to_sql IfReplace).

(** ** Validate (lines 127-148) *)

(** How an f-string renders a pulled value. *)
Definition fmt (v : option Z) : string :=
  match v with
  | Some n => pretty n
  | None => "None"
  end.

Definition validation_error : string :=
  "Pipeline validation failed! Record counts don't match.".

Definition validate_pipeline (ti : string) : Task unit :=
  print "Validating pipeline execution...";;
  extracted ← xcom_pull "extracted_records" "extract";
  transformed ← xcom_pull "transformed_records" "transform";
  loaded ← xcom_pull "loaded_records" "load";
  print "Pipeline Summary:";;
  print ("  - Extracted: " +:+ fmt extracted +:+ " records");;
  print ("  - Transformed: " +:+ fmt transformed +:+ " records");;
  print ("  - Loaded: " +:+ fmt loaded +:+ " records");;
  if bool_decide (extracted = transformed) && bool_decide (transformed = loaded)
  then print "âœ“ Pipeline validation successful! All stages processed the same number of records."
  else raise (ValueError validation_error).

(** ** The DAG (lines 152-188) *)

Record PythonOperator := mkOp {
  task_id : string;
  python_callable : string → Task unit
}.

(** The task ids each operator keeps of its direct neighbours. *)
Record Deps := mkDeps {
  upstream_task_ids : gmap string (gset string);
  downstream_task_ids : gmap string (gset string)
}.

Definition no_deps : Deps := mkDeps ∅ ∅.

Definition upstream_of (g : Deps) (t : string) : gset string :=
  default ∅ (upstream_task_ids g !! t).

Definition downstream_of (g : Deps) (t : string) : gset string :=
  default ∅ (downstream_task_ids g !! t).

Definition set_downstream (a b : string) (g : Deps) : Deps :=
  mkDeps (<[b := {[a]} ∪ upstream_of g b]> (upstream_task_ids g))
         (<[a := {[b]} ∪ downstream_of g a]> (downstream_task_ids g)).

(** [a >> b] declares [b] downstream of [a] and evaluates to [b], so that a
    chain [a >> b >> c] goes on from [b]. *)
Definition rshift (a b : PythonOperator) (g : Deps) : PythonOperator * Deps :=
  (b, set_downstream (task_id a) (task_id b) g).

(** Lines 14-22, the part of [default_args] the Runner reads: one retry,
    five minutes later. *)
Record DefaultArgs := mkArgs {
  arg_retries : nat;
  arg_retry_delay_minutes : Z
}.

Definition default_args : DefaultArgs := mkArgs 1 5.

Record DAG := mkDAG {
  dag_id : string;
  retries : nat;
  tasks : list PythonOperator;
  deps : Deps
}.

Section Dag.

Variable to_datetime : string → option Timestamp.

Definition extract_task : PythonOperator := mkOp "extract" extract_data.
Definition transform_task : PythonOperator :=
  mkOp "transform" (transform_data to_datetime).
Definition load_task : PythonOperator := mkOp "load" load_data.
Definition validate_task : PythonOperator := mkOp "validate" validate_pipeline.

(** Line 188. *)
Definition dependencies : Deps :=
  let '(t, g) := rshift extract_task transform_task no_deps in
  let '(t, g) := rshift t load_task g in
  let '(_, g) := rshift t validate_task g in
  g.

Definition dag : DAG :=
  mkDAG "etl_pipeline_example" (arg_retries default_args)
        [extract_task; transform_task; load_task; validate_task]
        dependencies.

End Dag.

(** ** The Runner *)

Module Runner.

Inductive TaskStatus := Success | Failed | UpstreamFailed.

#[global] Instance TaskStatus_eq_dec : EqDecision TaskStatus.
Proof. solve_decision. Defined.

(** One DAG run: the state of every task that was decided, the world the
    tasks act on, and the ids of the tasks that were executed, in order. *)
Record Run := mkRun {
  statuses : gmap string TaskStatus;
  world : World;
  started : list string
}.

Definition init (s : Storage) : Run := mkRun ∅ (mkWorld s ∅ []) [].

(** The retry policy: a failed attempt is repeated while retries remain. *)
Fixpoint run_with_retries (n : nat) (c : Task unit) : Task unit := λ w,
  match c w with
  | (w', inr u) => (w', inr u)
  | (w', inl e) =>
      match n with
      | O => (w', inl e)
      | S n => run_with_retries n c w'
      end
  end.

Definition status_of {A} (r : exn + A) : TaskStatus :=
  match r with
  | inl _ => Failed
  | inr _ => Success
  end.

(** The callable gets the task instance of its operator as context. *)
Definition attempt (d : DAG) (op : PythonOperator) : Task unit :=
  run_with_retries (retries d) (python_callable op (task_id op)).

Definition execute (d : DAG) (op : PythonOperator) (r : Run) : Run :=
  let run := attempt d op (world r) in
  mkRun (<[task_id op := status_of run.2]> (statuses r)) run.1
        (started r ++ [task_id op])%list.

Definition skip (op : PythonOperator) (r : Run) : Run :=
  mkRun (<[task_id op := UpstreamFailed]> (statuses r)) (world r) (started r).

Definition all_succeeded (st : gmap string TaskStatus) (us : gset string) : Prop :=
  ∀ u, u ∈ us → st !! u = Some Success.

Definition some_failed (st : gmap string TaskStatus) (us : gset string) : Prop :=
  ∃ u, u ∈ us ∧ (st !! u = Some Failed ∨ st !! u = Some UpstreamFailed).

(** Modelled from the spec: the Runner is Airflow's scheduler, an external
    collaborator; its rule is the one of the PipelineGraph contract. A task
    not yet decided is executed once every task it depends on has succeeded,
    and it is skipped, never executed, once one of them failed or was
    skipped. *)
Inductive step (d : DAG) : Run → Run → Prop :=
  | step_execute op r :
      op ∈ tasks d →
      statuses r !! task_id op = None →
      all_succeeded (statuses r) (upstream_of (deps d) (task_id op)) →
      step d r (execute d op r)
  | step_skip op r :
      op ∈ tasks d →
      statuses r !! task_id op = None →
      some_failed (statuses r) (upstream_of (deps d) (task_id op)) →
      step d r (skip op r).

Definition reachable (d : DAG) (s : Storage) (r : Run) : Prop :=
  rtc (step d) (init s) r.

(** The same rule as a function: the tasks are visited in the order the
    DAG lists them. *)
Definition ready (d : DAG) (st : gmap string TaskStatus) (t : string) : bool :=
  bool_decide (set_Forall (λ u, st !! u = Some Success) (upstream_of (deps d) t)).

Definition blocked (d : DAG) (st : gmap string TaskStatus) (t : string) : bool :=
  bool_decide (set_Exists (λ u, st !! u = Some Failed ∨ st !! u = Some UpstreamFailed)
                          (upstream_of (deps d) t)).

Definition visit (d : DAG) (r : Run) (op : PythonOperator) : Run :=
  match statuses r !! task_id op with
  | Some _ => r
  | None =>
      if ready d (statuses r) (task_id op) then execute d op r
      else if blocked d (statuses r) (task_id op) then skip op r
      else r
  end.

Definition schedule (d : DAG) (r : Run) : Run := foldl (visit d) r (tasks d).

End Runner.

(** One run of the pipeline from the storage the previous run left. *)
Definition run_pipeline (to_datetime : string → option Timestamp) (s : Storage)
  : Runner.Run :=
  Runner.schedule (dag to_datetime) (Runner.init s).

(** ** An instance of the date parser

    Calendar dates written [YYYY-MM-DD], the format of the sample data; any
    other cell raises. *)

Definition digit (a : Ascii.ascii) : option Z :=
  let n := Z.of_nat (Ascii.nat_of_ascii a) in
  if bool_decide (48 ≤ n ≤ 57)%Z then Some (n - 48)%Z else None.

Definition is_leap (y : Z) : bool :=
  bool_decide (y `mod` 4 = 0)%Z
  && (negb (bool_decide (y `mod` 100 = 0)%Z) || bool_decide (y `mod` 400 = 0)%Z).

Definition days_in_month (y m : Z) : Z :=
  if bool_decide (m = 2)%Z then (if is_leap y then 29 else 28)%Z
  else if bool_decide (m ∈ [4; 6; 9; 11]%Z) then 30%Z
  else 31%Z.

Definition parse_iso_date (s : string) : option Timestamp :=
  match s with
  | String y1 (String y2 (String y3 (String y4 (String "-"%char
      (String m1 (String m2 (String "-"%char (String d1 (String d2 EmptyString))))))))) =>
      y1 ← digit y1; y2 ← digit y2; y3 ← digit y3; y4 ← digit y4;
      m1 ← digit m1; m2 ← digit m2; d1 ← digit d1; d2 ← digit d2;
      let y := (1000 * y1 + 100 * y2 + 10 * y3 + y4)%Z in
      let m := (10 * m1 + m2)%Z in
      let d := (10 * d1 + d2)%Z in
      if bool_decide (1 ≤ m ≤ 12 ∧ 1 ≤ d ≤ days_in_month y m)%Z
      then Some (mkTs y m d)
      else None
  | _ => None
  end.

(** ** Observations used by the statements *)

(** What a task returns or raises from [w], and the world it leaves. *)
Definition outcome {A} (m : Task A) (w : World) : exn + A := (m w).2.
Definition final {A} (m : Task A) (w : World) : World := (m w).1.

(** The three counts as [validate_pipeline] pulls them. *)
Definition extracted_count (w : World) : option Z :=
  xcom w !! ("extract", "extracted_records").
Definition transformed_count (w : World) : option Z :=
  xcom w !! ("transform", "transformed_records").
Definition loaded_count (w : World) : option Z :=
  xcom w !! ("load", "loaded_records").

Definition all_present_and_equal (w : World) : Prop :=
  ∃ n, extracted_count w = Some n ∧ transformed_count w = Some n
       ∧ loaded_count w = Some n.

(** A world whose XCom holds exactly the three given counts. *)
Definition counts_world (e t l : Z) : World :=
  mkWorld (mkStorage true None None ∅)
          {[ ("extract", "extracted_records") := e;
             ("transform", "transformed_records") := t;
             ("load", "loaded_records") := l ]}
          [].

Definition empty_storage : Storage := mkStorage false None None ∅.
Definition empty_world : World := mkWorld empty_storage ∅ [].

(** [needle in hay] on Python strings. *)
Fixpoint contains (needle hay : string) : bool :=
  String.prefix needle hay
  || match hay with
     | EmptyString => false
     | String _ rest => contains needle rest
     end.

(** Does a message show the count [n]? *)
Definition names_count (msg : string) (n : Z) : bool := contains (pretty n) msg.

(** [u] was executed before [t]. *)
Definition before (u t : string) (l : list string) : Prop :=
  ∃ i j, l !! i = Some u ∧ l !! j = Some t ∧ i < j.

(** The world right after a successful extract in a fresh run. *)
Definition extracted_world : World :=
  mkWorld (mkStorage true (Some sample_data) None ∅)
          {[ ("extract", "extracted_records") := 5%Z ]} [].



(** The world right after a successful transform in a fresh run, and the same
    with rows of an earlier run still in the table. *)
Definition transformed_world : World :=
  final (transform_data parse_iso_date "transform") extracted_world.

Definition stale_rows : list DerivedRow :=
  [ mkDerived 9 "Old Customer" 10 (mkTs 2023 12 31) "South" 1 11 12 2023 "Low";
    mkDerived 8 "Older Customer" 20 (mkTs 2023 12 30) "East" 2 22 12 2023 "Low" ].

Definition stale_world : World :=
  mkWorld (mkStorage true (raw_data (storage transformed_world))
                     (transformed_data (storage transformed_world))
                     {[ "customer_purchases" := stale_rows ]})
          (xcom transformed_world) [].

(** What one run leaves in the storage, and the storage after a second run
    started from there. *)
Definition storage_after (to_datetime : string → option Timestamp) (s : Storage)
  : Storage :=
  storage (Runner.world (run_pipeline to_datetime s)).

(** What holds of every state of a run: the executed tasks are those that
    succeeded or failed, each was executed once, and each was executed after
    all the tasks it depends on had succeeded. *)
Definition run_inv (d : DAG) (r : Runner.Run) : Prop :=
  (∀ t, t ∈ Runner.started r →
        Runner.statuses r !! t = Some Runner.Success
        ∨ Runner.statuses r !! t = Some Runner.Failed)
  ∧ (∀ t, Runner.statuses r !! t = Some Runner.Success → t ∈ Runner.started r)
  ∧ (∀ t u, t ∈ Runner.started r → u ∈ upstream_of (deps d) t →
            Runner.statuses r !! u = Some Runner.Success
            ∧ before u t (Runner.started r)).

(** A publisher that succeeded left its count in the XCom table. *)
Definition published_inv (r : Runner.Run) : Prop :=
  (Runner.statuses r !! "extract" = Some Runner.Success →
   is_Some (extracted_count (Runner.world r)))
  ∧ (Runner.statuses r !! "transform" = Some Runner.Success →
     is_Some (transformed_count (Runner.world r)))
  ∧ (Runner.statuses r !! "load" = Some Runner.Success →
     is_Some (loaded_count (Runner.world r))).

(** The four callables one after the other, in the order line 188 declares,
    each under the task id given to its operator; the first exception ends
    the sequence. *)
Definition etl_chain (to_datetime : string → option Timestamp)
    (extract_id transform_id load_id validate_id : string) : Task unit :=
  extract_data extract_id;;
  transform_data to_datetime transform_id;;
  load_data load_id;;
  validate_pipeline validate_id.

(** A world with no raw file, and one whose files are empty frames over a
    table that still holds rows. *)
Definition no_files_world : World :=
  mkWorld (mkStorage true None None {[ "customer_purchases" := stale_rows ]})
          {[ ("extract", "extracted_records") := 5%Z ]} [].

Definition empty_frames_world : World :=
  mkWorld (mkStorage true (Some []) (Some []) {[ "customer_purchases" := stale_rows ]})
          ∅ [].

(** A raw file whose second row has no amount: pandas reads the empty cell
    as NaN. *)
Definition nan_rows : list RawRow :=
  [ mkRaw 1 "John Doe" 150.50 "2024-01-01" "North";
    mkRaw 2 "Jane Smith" nan "2024-01-02" "South" ].

Definition nan_world : World :=
  mkWorld (mkStorage true (Some nan_rows) None ∅) ∅ [].

(** A write that loses the last row of the frame. *)
Definition lossy_write (name : string) (df : list DerivedRow)
    (db : gmap string (list DerivedRow)) : exn + gmap string (list DerivedRow) :=
  inr (<[name := removelast df]> db).
(** * Properties *)

(** ** Binary64 comparisons *)

Section FloatOrder.

Import SpecFloat.

Lemma SFcompare_swap a b c :
  SFcompare a b = Some c → SFcompare b a = Some (CompOpp c).
Proof.
  destruct a as [sa|sa| |sa ma ea], b as [sb|sb| |sb mb eb]; simpl;
    try discriminate;
    try (intros [= <-]; repeat match goal with s : bool |- _ => destruct s end;
         reflexivity).
  intros [= <-]. f_equal.
  pose proof (Pos.compare_cont_antisym ma mb Eq) as Hm. simpl in Hm.
  rewrite (Z.compare_antisym ea eb), <- Hm.
  destruct sa, sb; simpl; try reflexivity;
    destruct (ea ?= eb)%Z; simpl; try reflexivity;
    destruct (Pos.compare_cont Eq ma mb); reflexivity.
Qed.

Lemma SFcompare_not_nan a b :
  SFcompare a a = Some Eq → SFcompare b b = Some Eq → is_Some (SFcompare a b).
Proof.
  destruct a, b; simpl; try discriminate; eauto.
Qed.

Lemma is_nan_false_compare x :
  is_nan x = false → SFcompare (Prim2SF x) (Prim2SF x) = Some Eq.
Proof.
  unfold is_nan. rewrite FloatAxioms.eqb_spec. unfold SFeqb.
  destruct (SFcompare (Prim2SF x) (Prim2SF x)) as [[]|]; simpl; congruence.
Qed.

(** Away from NaN, [x <= c] is the negation of [c < x]. *)
Lemma leb_negb_ltb x c :
  is_nan x = false → is_nan c = false → (x <=? c)%float = negb (c <? x)%float.
Proof.
  intros Hx Hc. apply is_nan_false_compare in Hx, Hc.
  destruct (SFcompare_not_nan _ _ Hx Hc) as [o Ho].
  rewrite FloatAxioms.leb_spec, FloatAxioms.ltb_spec. unfold SFleb, SFltb.
  rewrite (SFcompare_swap _ _ _ Ho), Ho. destruct o; reflexivity.
Qed.

(** A comparison with NaN is false. *)
Lemma ltb_nan_r c x : is_nan x = true → (c <? x)%float = false.
Proof.
  unfold is_nan. rewrite FloatAxioms.eqb_spec, FloatAxioms.ltb_spec. unfold SFeqb, SFltb.
  destruct (Prim2SF x), (Prim2SF c); simpl; try discriminate; try reflexivity;
    repeat match goal with s : bool |- _ => destruct s end; simpl; try discriminate.
  all: rewrite ?Z.compare_refl, ?Pos.compare_cont_refl; simpl; discriminate.
Qed.

(** An amount above 200 is above 100. *)
Lemma ltb_200_100 x : (200 <? x)%float = true → (100 <? x)%float = true.
Proof.
  rewrite !FloatAxioms.ltb_spec. unfold SFltb.
  let v := eval vm_compute in (Prim2SF 200) in change (Prim2SF 200) with v.
  let v := eval vm_compute in (Prim2SF 100) in change (Prim2SF 100) with v.
  destruct (Prim2SF x) as [s|s| |s m e]; cbn [SFcompare];
    try destruct s; try congruence.
  destruct (Z.compare_spec (-45) e) as [<-|Hlt|Hgt]; [| |discriminate].
  - intros _. reflexivity.
  - intros _. destruct (Z.compare_spec (-46) e); [lia|reflexivity|lia].
Qed.

End FloatOrder.

(** ** Running the tasks *)

Ltac run_task :=
  unfold outcome, final, extract_data, transform_data, load_data, load_data_with,
    validate_pipeline, read_csv_raw, read_csv_transformed, to_csv_raw,
    to_csv_transformed, makedirs, put_database, get_storage, put_storage,
    xcom_pull, xcom_push, print, lift, raise, mbind, task_bind, mret, task_ret;
  simpl.

Lemma extract_data_run ti w :
  outcome (extract_data ti) w = inr tt
  ∧ storage (final (extract_data ti) w)
    = mkStorage true (Some sample_data) (transformed_data (storage w))
                (database (storage w))
  ∧ xcom (final (extract_data ti) w) = <[(ti, "extracted_records") := 5%Z]> (xcom w).
Proof. run_task. auto. Qed.

Section TransformFacts.

Variable to_datetime : string → option Timestamp.

Lemma series_inr rows dates :
  to_datetime_series to_datetime (purchase_date <$> rows) = inr dates →
  Forall2 (λ r d, to_datetime (purchase_date r) = Some d) rows dates.
Proof.
  revert dates. induction rows as [|r rows IH]; csimpl; intros dates H.
  - injection H as <-. constructor.
  - destruct (to_datetime (purchase_date r)) as [d|] eqn:Hd; [|discriminate].
    destruct (to_datetime_series _ _) as [e|ds]; [discriminate|].
    injection H as <-. constructor; auto.
Qed.

Lemma series_total rows :
  Forall (λ r, is_Some (to_datetime (purchase_date r))) rows →
  ∃ dates, to_datetime_series to_datetime (purchase_date <$> rows) = inr dates.
Proof.
  induction 1 as [|r rows [d Hd] _ [ds IH]]; csimpl; [eauto|].
  rewrite Hd, IH. eauto.
Qed.

Lemma series_inl rows r :
  r ∈ rows → to_datetime (purchase_date r) = None →
  ∃ c, to_datetime_series to_datetime (purchase_date <$> rows)
       = inl (DateParseError c) ∧ to_datetime c = None.
Proof.
  intros Hin Hr. induction Hin as [r rows|r r' rows _ IH]; csimpl.
  - rewrite Hr. eauto.
  - destruct (to_datetime (purchase_date r')) eqn:Hd; [|eauto].
    destruct (IH Hr) as (c & -> & Hc). eauto.
Qed.

Lemma series_inl_shape rows e :
  to_datetime_series to_datetime (purchase_date <$> rows) = inl e →
  ∃ c, e = DateParseError c ∧ to_datetime c = None.
Proof.
  induction rows as [|r rows IH]; csimpl; [discriminate|].
  destruct (to_datetime (purchase_date r)) eqn:Hd.
  - destruct (to_datetime_series _ _); [|discriminate].
    intros [= <-]. auto.
  - intros [= <-]. eauto.
Qed.

Lemma derive_rows rows dates :
  Forall2 (λ r d, to_datetime (purchase_date r) = Some d) rows dates →
  Forall2 (λ r o, ∃ d, to_datetime (purchase_date r) = Some d ∧ o = derive r d)
          rows (zip_with derive rows dates).
Proof. induction 1; simpl; constructor; eauto. Qed.

(** The three ways [transform_data] can go. *)
Lemma transform_data_ok ti w rows dates :
  raw_data (storage w) = Some rows →
  to_datetime_series to_datetime (purchase_date <$> rows) = inr dates →
  outcome (transform_data to_datetime ti) w = inr tt
  ∧ storage (final (transform_data to_datetime ti) w)
    = mkStorage (data_dir (storage w)) (Some rows)
                (Some (zip_with derive rows dates)) (database (storage w))
  ∧ xcom (final (transform_data to_datetime ti) w)
    = <[(ti, "transformed_records") := Z.of_nat (length rows)]> (xcom w).
Proof.
  intros Hraw Hs. run_task. rewrite Hraw. simpl. rewrite Hs. simpl.
  rewrite Hraw. repeat split.
  apply series_inr, Forall2_length in Hs.
  rewrite length_zip_with. do 3 f_equal. lia.
Qed.

Lemma transform_data_bad_date ti w rows e :
  raw_data (storage w) = Some rows →
  to_datetime_series to_datetime (purchase_date <$> rows) = inl e →
  outcome (transform_data to_datetime ti) w = inl e
  ∧ storage (final (transform_data to_datetime ti) w) = storage w
  ∧ xcom (final (transform_data to_datetime ti) w) = xcom w.
Proof.
  intros Hraw Hs. run_task. rewrite Hraw. simpl. rewrite Hs. auto.
Qed.

Lemma transform_data_no_file ti w :
  raw_data (storage w) = None →
  outcome (transform_data to_datetime ti) w = inl (FileNotFoundError RAW_DATA_PATH)
  ∧ storage (final (transform_data to_datetime ti) w) = storage w
  ∧ xcom (final (transform_data to_datetime ti) w) = xcom w.
Proof. intros Hraw. run_task. rewrite Hraw. auto. Qed.

Lemma transform_data_success ti w rows :
  raw_data (storage w) = Some rows →
  outcome (transform_data to_datetime ti) w = inr tt →
  ∃ dates, to_datetime_series to_datetime (purchase_date <$> rows) = inr dates.
Proof.
  intros Hraw Hok.
  destruct (to_datetime_series to_datetime (purchase_date <$> rows))
    as [e|dates] eqn:Hs; [|eauto].
  destruct (transform_data_bad_date ti w rows e Hraw Hs) as [He _]. congruence.
Qed.

End TransformFacts.

(** ** Extract *)

(** C10: [extract_data] is a constant producer. From every world, whatever the
    storage and the XCom table held, it succeeds, leaves the same five sample
    rows in the raw-data file (customers 1 to 5 with the fixed names, amounts,
    dates and regions) and publishes the count 5 under its own task id. *)
Theorem extract_is_constant ti w :
  outcome (extract_data ti) w = inr tt
  ∧ raw_data (storage (final (extract_data ti) w)) = Some sample_data
  ∧ xcom (final (extract_data ti) w) !! (ti, "extracted_records") = Some 5%Z
  ∧ length sample_data = 5%nat
  ∧ customer_id <$> sample_data = [1; 2; 3; 4; 5]%Z
  ∧ customer_name <$> sample_data
    = ["John Doe"; "Jane Smith"; "Bob Johnson"; "Alice Brown"; "Charlie Wilson"]
  ∧ purchase_amount <$> sample_data = [150.50; 200.00; 75.25; 300.75; 125.00]%float
  ∧ purchase_date <$> sample_data
    = ["2024-01-01"; "2024-01-02"; "2024-01-03"; "2024-01-04"; "2024-01-05"]
  ∧ region <$> sample_data = ["North"; "South"; "East"; "West"; "North"].
Proof.
  destruct (extract_data_run ti w) as (Hok & Hst & Hx).
  rewrite Hok, Hst, Hx, lookup_insert_eq. repeat split.
Qed.

(** ** Transform *)

(** C2: [transform_data] keeps the row count. When the raw file holds [rows]
    and every date cell parses, the task succeeds; and whenever it succeeds,
    the transformed file holds one derived row per input row, in order, and
    the published count is the number of input rows. *)
Theorem transform_preserves_row_count to_datetime ti w rows :
  raw_data (storage w) = Some rows →
  (Forall (λ r, is_Some (to_datetime (purchase_date r))) rows →
   outcome (transform_data to_datetime ti) w = inr tt)
  ∧ (outcome (transform_data to_datetime ti) w = inr tt →
     ∃ out,
       transformed_data (storage (final (transform_data to_datetime ti) w)) = Some out
       ∧ length out = length rows
       ∧ Forall2 (λ r o, ∃ d, to_datetime (purchase_date r) = Some d ∧ o = derive r d)
                 rows out
       ∧ xcom (final (transform_data to_datetime ti) w) !! (ti, "transformed_records")
         = Some (Z.of_nat (length rows))).
Proof.
  intros Hraw. split.
  - intros Hall. destruct (series_total to_datetime rows Hall) as [dates Hs].
    apply (transform_data_ok to_datetime ti w rows dates Hraw Hs).
  - intros Hok.
    destruct (transform_data_success to_datetime ti w rows Hraw Hok) as [dates Hs].
    destruct (transform_data_ok to_datetime ti w rows dates Hraw Hs)
      as (_ & Hst & Hx).
    pose proof (derive_rows to_datetime rows dates (series_inr _ _ _ Hs)) as HF.
    exists (zip_with derive rows dates). rewrite Hst, Hx, lookup_insert_eq.
    repeat split; [symmetry; exact (Forall2_length _ _ _ HF) | exact HF].
Qed.

Lemma transform_preserves_row_count_witness :
  raw_data (storage extracted_world) = Some sample_data
  ∧ outcome (transform_data parse_iso_date "transform") extracted_world = inr tt
  ∧ ∃ out,
      transformed_data
        (storage (final (transform_data parse_iso_date "transform") extracted_world))
      = Some out
      ∧ length out = 5%nat.
Proof.
  destruct (transform_preserves_row_count parse_iso_date "transform"
              extracted_world sample_data eq_refl) as [Hok Hout].
  assert (Hrun : outcome (transform_data parse_iso_date "transform") extracted_world
                 = inr tt).
  { apply Hok. repeat constructor; eexists; vm_compute; reflexivity. }
  split; [reflexivity|]. split; [exact Hrun|].
  destruct (Hout Hrun) as (out & Hfile & Hlen & _). exists out. auto.
Defined.



(** C4: tax and total. In every row [transform_data] writes, the amount is the
    input row's, [tax_amount] is that amount times 0.10 and [total_amount] is
    the amount plus the tax, all in binary64; for the amount 150.50 these are
    the binary64 numbers written 15.05 and 165.55. *)
Theorem tax_and_total to_datetime ti w rows :
  raw_data (storage w) = Some rows →
  outcome (transform_data to_datetime ti) w = inr tt →
  (∃ out,
     transformed_data (storage (final (transform_data to_datetime ti) w)) = Some out
     ∧ Forall2 (λ r o,
                  d_purchase_amount o = purchase_amount r
                  ∧ tax_amount o = (purchase_amount r * 0.10)%float
                  ∧ total_amount o = (purchase_amount r + tax_amount o)%float)
               rows out)
  ∧ (∀ r d, purchase_amount r = 150.50%float →
            tax_amount (derive r d) = 15.05%float
            ∧ total_amount (derive r d) = 165.55%float).
Proof.
  intros Hraw Hok. split.
  - destruct (transform_data_success to_datetime ti w rows Hraw Hok) as [dates Hs].
    destruct (transform_data_ok to_datetime ti w rows dates Hraw Hs)
      as (_ & Hst & _).
    exists (zip_with derive rows dates). rewrite Hst. split; [reflexivity|].
    eapply Forall2_impl;
      [exact (derive_rows to_datetime rows dates (series_inr _ _ _ Hs))|].
    intros r o (d & _ & ->). simpl. auto.
  - intros r d Hr. unfold derive. simpl. rewrite Hr. split; reflexivity.
Qed.

Lemma tax_and_total_witness :
  ∃ out,
    transformed_data
      (storage (final (transform_data parse_iso_date "transform") extracted_world))
    = Some out
    ∧ (tax_amount <$> out) !! 0%nat = Some 15.05%float
    ∧ (total_amount <$> out) !! 0%nat = Some 165.55%float.
Proof.
  destruct (tax_and_total parse_iso_date "transform" extracted_world sample_data
              eq_refl eq_refl) as [(out & Hfile & _) _].
  exists out. split; [exact Hfile|].
  injection Hfile as <-. split; reflexivity.
Defined.

(** The products and sums are binary64 ones: for the amount 300.75 the tax is
    not the binary64 number written 30.075. *)
Example tax_is_rounded : (300.75 * 0.10)%float ≠ 30.075%float.
Proof.
  intros H.
  assert (E : (300.75 * 0.10 =? 30.075)%float = true) by (rewrite H; reflexivity).
  vm_compute in E. discriminate E.
Qed.

(** The category is always one of the three labels. *)
Lemma categorize_total x :
  categorize x = "High" ∨ categorize x = "Medium" ∨ categorize x = "Low".
Proof.
  unfold categorize. destruct (200 <? x)%float, (100 <? x)%float; auto.
Qed.

(** C3 as stated fails at NaN: a missing amount is labelled "Low" although
    [NaN <= 100] is false. *)
Lemma categorize_nan_counterexample :
  categorize nan = "Low" ∧ (nan <=? 100)%float = false.
Proof. split; reflexivity. Qed.

(** C3, amended: for every purchase amount that is a number (not NaN), the
    category is "High" iff the amount is above 200, "Medium" iff it is above
    100 and at most 200, "Low" iff it is at most 100; an amount that is NaN is
    "Low". Every amount gets one of the three labels. *)
Theorem categorize_thresholds x :
  (is_nan x = false →
   (categorize x = "High" ↔ (200 <? x)%float = true)
   ∧ (categorize x = "Medium" ↔ (100 <? x)%float = true ∧ (x <=? 200)%float = true)
   ∧ (categorize x = "Low" ↔ (x <=? 100)%float = true))
  ∧ (is_nan x = true → categorize x = "Low")
  ∧ (categorize x = "High" ∨ categorize x = "Medium" ∨ categorize x = "Low").
Proof.
  split; [|split; [|apply categorize_total]].
  - intros Hx.
    rewrite (leb_negb_ltb x 200 Hx eq_refl), (leb_negb_ltb x 100 Hx eq_refl).
    pose proof (ltb_200_100 x) as Htr. unfold categorize.
    destruct (200 <? x)%float eqn:H200, (100 <? x)%float eqn:H100; simpl;
      try (specialize (Htr eq_refl); discriminate);
      repeat split; intros; try discriminate; try reflexivity;
      try (destruct_and?; discriminate).
  - intros Hx. unfold categorize. rewrite !ltb_nan_r by exact Hx. reflexivity.
Qed.

Lemma categorize_thresholds_witness :
  categorize 200.00 = "Medium" ∧ categorize 200.01 = "High"
  ∧ categorize 100.00 = "Low" ∧ categorize 100.01 = "Medium".
Proof.
  split; [|split; [|split]].
  - apply (proj1 (categorize_thresholds 200.00) eq_refl). split; reflexivity.
  - apply (proj1 (categorize_thresholds 200.01) eq_refl). reflexivity.
  - apply (proj1 (categorize_thresholds 100.00) eq_refl). reflexivity.
  - apply (proj1 (categorize_thresholds 100.01) eq_refl). split; reflexivity.
Defined.

(** ** Load *)

(** [if_exists='replace'] never fails and overwrites the table. *)
Lemma to_sql_replace name df db :
  to_sql IfReplace name df db = inr (<[name := df]> db).
Proof. unfold to_sql. destruct (db !! name); reflexivity. Qed.

Lemma load_data_with_success write ti w :
  outcome (load_data_with write ti) w = inr tt →
  ∃ rows db' n,
    transformed_data (storage w) = Some rows
    ∧ write "customer_purchases" rows (database (storage w)) = inr db'
    ∧ select_count "customer_purchases" db' = inr n
    ∧ database (storage (final (load_data_with write ti) w)) = db'
    ∧ xcom (final (load_data_with write ti) w) = <[(ti, "loaded_records") := n]> (xcom w).
Proof.
  run_task.
  destruct (transformed_data (storage w)) as [rows|]; simpl; [|discriminate].
  destruct (write _ rows _) as [e|db'] eqn:Hw; simpl; [discriminate|].
  destruct (select_count "customer_purchases" db') as [e|n] eqn:Hn; simpl;
    [discriminate|].
  intros _. exists rows, db', n. rewrite Hw. auto.
Qed.

Lemma load_data_ok ti w rows :
  transformed_data (storage w) = Some rows →
  outcome (load_data ti) w = inr tt
  ∧ storage (final (load_data ti) w)
    = mkStorage (data_dir (storage w)) (raw_data (storage w)) (Some rows)
                (<["customer_purchases" := rows]> (database (storage w)))
  ∧ xcom (final (load_data ti) w)
    = <[(ti, "loaded_records") := Z.of_nat (length rows)]> (xcom w).
Proof.
  intros Hfile. run_task. rewrite Hfile. simpl.
  rewrite to_sql_replace. simpl.
  unfold select_count. rewrite lookup_insert_eq. simpl. rewrite Hfile. auto.
Qed.

Lemma load_data_no_file ti w :
  transformed_data (storage w) = None →
  outcome (load_data ti) w = inl (FileNotFoundError TRANSFORMED_DATA_PATH)
  ∧ storage (final (load_data ti) w) = storage w
  ∧ xcom (final (load_data ti) w) = xcom w.
Proof. intros Hfile. run_task. rewrite Hfile. auto. Qed.

(** C5: [load_data] replaces the table and counts it back. When the
    transformed file holds [rows], the task succeeds, the table
    [customer_purchases] holds exactly [rows] whatever it held before, and the
    other tables are untouched. And whatever the write of line 112 leaves in
    the store, the count published under [loaded_records] is the one the
    count query returns on the store after that write. *)
Theorem load_replaces_and_reads_back :
  (∀ ti w rows,
     transformed_data (storage w) = Some rows →
     outcome (load_data ti) w = inr tt
     ∧ database (storage (final (load_data ti) w))
       = <["customer_purchases" := rows]> (database (storage w))
     ∧ database (storage (final (load_data ti) w)) !! "customer_purchases" = Some rows)
  ∧ (∀ write ti w,
       outcome (load_data_with write ti) w = inr tt →
       ∃ n,
         select_count "customer_purchases"
           (database (storage (final (load_data_with write ti) w))) = inr n
         ∧ xcom (final (load_data_with write ti) w) !! (ti, "loaded_records") = Some n).
Proof.
  split.
  - intros ti w rows Hfile.
    destruct (load_data_ok ti w rows Hfile) as (Hok & Hst & _).
    rewrite Hok, Hst. simpl.
    split; [reflexivity|]. split; [reflexivity|]. apply lookup_insert_eq.
  - intros write ti w Hok.
    destruct (load_data_with_success write ti w Hok)
      as (rows & db' & n & _ & _ & Hn & Hdb & Hx).
    exists n. rewrite Hdb, Hx, lookup_insert_eq. auto.
Qed.

Lemma load_replaces_and_reads_back_witness :
  (database (storage stale_world) !! "customer_purchases" = Some stale_rows
   ∧ database (storage (final (load_data "load") stale_world)) !! "customer_purchases"
     = transformed_data (storage stale_world))
  ∧ (length <$> transformed_data (storage transformed_world) = Some 5%nat
     ∧ xcom (final (load_data_with lossy_write "load") transformed_world)
       !! ("load", "loaded_records") = Some 4%Z).
Proof.
  destruct load_replaces_and_reads_back as [Hreplace Hcount]. split.
  - split; [reflexivity|].
    destruct (Hreplace "load" stale_world _ eq_refl) as (_ & _ & Htbl).
    exact Htbl.
  - split; [reflexivity|].
    destruct (Hcount lossy_write "load" transformed_world eq_refl) as (n & Hn & Hx).
    rewrite Hx. f_equal.
    assert (Hfour : select_count "customer_purchases"
                      (database (storage (final (load_data_with lossy_write "load")
                                                transformed_world)))
                    = inr 4%Z) by (vm_compute; reflexivity).
    congruence.
Defined.

(** ** Validate *)

Lemma validate_pipeline_run ti w :
  outcome (validate_pipeline ti) w
  = (if bool_decide (extracted_count w = transformed_count w)
        && bool_decide (transformed_count w = loaded_count w)
     then inr tt else inl (ValueError validation_error))
  ∧ storage (final (validate_pipeline ti) w) = storage w
  ∧ xcom (final (validate_pipeline ti) w) = xcom w.
Proof.
  run_task. unfold extracted_count, transformed_count, loaded_count.
  destruct (bool_decide _ && bool_decide _); simpl; auto.
Qed.

(** C1 as stated fails on a run in which nothing was published: the three
    pulled values are all [None], which are equal, and validate succeeds. *)
Lemma validate_all_missing_counterexample :
  outcome (validate_pipeline "validate") empty_world = inr tt
  ∧ ¬ all_present_and_equal empty_world.
Proof.
  split; [reflexivity|]. intros (n & He & _). discriminate He.
Qed.

(** C1, amended: [validate_pipeline] succeeds iff the three values it pulls
    are equal, a count that was never published being pulled as [None], and
    otherwise raises the validation error. So when all three counts are
    present it succeeds iff they are the same number, and when some but not
    all of them are missing it fails. *)
Theorem validate_succeeds_iff ti w :
  (outcome (validate_pipeline ti) w = inr tt
   ↔ extracted_count w = transformed_count w ∧ transformed_count w = loaded_count w)
  ∧ (outcome (validate_pipeline ti) w ≠ inr tt →
     outcome (validate_pipeline ti) w = inl (ValueError validation_error))
  ∧ (∀ e t l,
       extracted_count w = Some e → transformed_count w = Some t →
       loaded_count w = Some l →
       (outcome (validate_pipeline ti) w = inr tt ↔ e = t ∧ t = l))
  ∧ (extracted_count w = None ∨ transformed_count w = None ∨ loaded_count w = None →
     is_Some (extracted_count w) ∨ is_Some (transformed_count w)
     ∨ is_Some (loaded_count w) →
     outcome (validate_pipeline ti) w = inl (ValueError validation_error)).
Proof.
  destruct (validate_pipeline_run ti w) as [-> _].
  assert (Hiff : (if bool_decide (extracted_count w = transformed_count w)
                     && bool_decide (transformed_count w = loaded_count w)
                  then inr tt else inl (ValueError validation_error)) = inr tt
                 ↔ extracted_count w = transformed_count w
                   ∧ transformed_count w = loaded_count w).
  { destruct (bool_decide_reflect (extracted_count w = transformed_count w)),
             (bool_decide_reflect (transformed_count w = loaded_count w));
      simpl; split; try done; intros [? ?]; done. }
  split; [exact Hiff|]. split; [|split].
  - destruct (_ && _); [done|reflexivity].
  - intros e t l He Ht Hl. rewrite Hiff, He, Ht, Hl.
    split; intros [H1 H2]; split; congruence.
  - intros Hnone Hsome.
    destruct (_ && _) eqn:Hb; [|reflexivity].
    apply andb_prop in Hb as [H1%bool_decide_eq_true H2%bool_decide_eq_true].
    rewrite <- H2, <- H1 in *.
    destruct Hsome as [[? Hs]|[[? Hs]|[? Hs]]], Hnone as [Hn|[Hn|Hn]]; congruence.
Qed.

Lemma validate_succeeds_iff_witness :
  outcome (validate_pipeline "validate") (counts_world 5 5 5) = inr tt
  ∧ outcome (validate_pipeline "validate") (counts_world 5 5 4)
    = inl (ValueError validation_error)
  ∧ outcome (validate_pipeline "validate") extracted_world
    = inl (ValueError validation_error).
Proof.
  split; [|split].
  - apply (proj1 (validate_succeeds_iff "validate" (counts_world 5 5 5))).
    split; reflexivity.
  - apply (proj1 (proj2 (validate_succeeds_iff "validate" (counts_world 5 5 4)))).
    discriminate.
  - apply (proj2 (proj2 (proj2 (validate_succeeds_iff "validate" extracted_world)))).
    + right. left. reflexivity.
    + left. eexists. reflexivity.
Defined.

(** C7 as stated fails: with extracted = 5, transformed = 5 and loaded = 4 the
    error raised shows neither 5 nor 4. *)
Lemma validate_error_counterexample :
  ∃ msg,
    outcome (validate_pipeline "validate") (counts_world 5 5 4) = inl (ValueError msg)
    ∧ names_count msg 5 = false
    ∧ names_count msg 4 = false.
Proof. exists validation_error. repeat split. Qed.

(** C7, amended: whenever the three pulled values are not all equal,
    [validate_pipeline] raises a [ValueError] whose message is the fixed text
    "Pipeline validation failed! Record counts don't match.", which holds no
    digit; the three per-stage values are shown before that, in the summary
    lines the task prints. *)
Theorem validate_error_is_fixed ti w :
  ¬ (extracted_count w = transformed_count w
     ∧ transformed_count w = loaded_count w) →
  outcome (validate_pipeline ti) w = inl (ValueError validation_error)
  ∧ Forall (λ c, digit c = None) (String.list_ascii_of_string validation_error)
  ∧ stdout (final (validate_pipeline ti) w)
    = (stdout w
       ++ [ "Validating pipeline execution...";
            "Pipeline Summary:";
            "  - Extracted: " +:+ fmt (extracted_count w) +:+ " records";
            "  - Transformed: " +:+ fmt (transformed_count w) +:+ " records";
            "  - Loaded: " +:+ fmt (loaded_count w) +:+ " records" ])%list.
Proof.
  intros Hne. split; [|split].
  - destruct (validate_pipeline_run ti w) as [-> _].
    destruct (bool_decide_reflect (extracted_count w = transformed_count w)),
             (bool_decide_reflect (transformed_count w = loaded_count w));
      simpl; try reflexivity.
    exfalso. apply Hne. split; assumption.
  - unfold validation_error. simpl. repeat constructor.
  - run_task. fold (extracted_count w) (transformed_count w) (loaded_count w).
    destruct (bool_decide_reflect (extracted_count w = transformed_count w)),
             (bool_decide_reflect (transformed_count w = loaded_count w));
      simpl; try (exfalso; apply Hne; split; assumption);
      rewrite <- !app_assoc; reflexivity.
Qed.

Lemma validate_error_is_fixed_witness :
  outcome (validate_pipeline "validate") (counts_world 5 5 4)
  = inl (ValueError "Pipeline validation failed! Record counts don't match.")
  ∧ stdout (final (validate_pipeline "validate") (counts_world 5 5 4))
    = [ "Validating pipeline execution...";
        "Pipeline Summary:";
        "  - Extracted: 5 records";
        "  - Transformed: 5 records";
        "  - Loaded: 4 records" ]
  ∧ names_count "  - Loaded: 4 records" 4 = true.
Proof.
  assert (Hne : ¬ (extracted_count (counts_world 5 5 4)
                   = transformed_count (counts_world 5 5 4)
                   ∧ transformed_count (counts_world 5 5 4)
                     = loaded_count (counts_world 5 5 4))).
  { intros [_ H]. discriminate H. }
  destruct (validate_error_is_fixed "validate" (counts_world 5 5 4) Hne)
    as (Hout & _ & Hlog).
  split; [exact Hout|]. split; [|reflexivity]. rewrite Hlog. reflexivity.
Defined.

(** ** The run of the DAG *)

Section RunnerFacts.

Import Runner.

Lemma before_app u t l l' : before u t l → before u t (l ++ l').
Proof.
  intros (i & j & Hi & Hj & Hij). exists i, j.
  rewrite !lookup_app_l by (eapply lookup_lt_Some; eassumption). auto.
Qed.

Lemma before_snoc u t l : u ∈ l → before u t (l ++ [t]).
Proof.
  intros (i & Hi)%list_elem_of_lookup. exists i, (length l).
  pose proof (lookup_lt_Some _ _ _ Hi).
  rewrite lookup_app_l, list_lookup_middle by done. auto.
Qed.

Lemma run_inv_init d s : run_inv d (init s).
Proof.
  split; [|split]; simpl.
  - intros t []%elem_of_nil.
  - intros t. rewrite lookup_empty. discriminate.
  - intros t u []%elem_of_nil.
Qed.

Lemma run_inv_step d r r' : run_inv d r → step d r r' → run_inv d r'.
Proof.
  intros (Hran & Hsucc & Hdeps) Hstep.
  destruct Hstep as [op r Hop Hnone Hall|op r Hop Hnone Hfail]; simpl.
  - assert (Hfresh : task_id op ∉ started r).
    { intros [H|H]%Hran; congruence. }
    split; [|split]; simpl.
    + intros t [Ht| ->%list_elem_of_singleton]%elem_of_app.
      * rewrite lookup_insert_ne by (intros <-; contradiction). auto.
      * rewrite lookup_insert_eq. destruct (attempt d op (world r)).2; auto.
    + intros t. rewrite lookup_insert. case_decide as Heq.
      * subst t. intros _. apply elem_of_app. right. by apply list_elem_of_singleton.
      * intros Ht. apply elem_of_app. left. auto.
    + intros t u [Ht| ->%list_elem_of_singleton]%elem_of_app Hu.
      * destruct (Hdeps t u Ht Hu) as [Hs Hb].
        rewrite lookup_insert_ne by congruence.
        split; [exact Hs|]. by apply before_app.
      * pose proof (Hall u Hu) as Hs.
        rewrite lookup_insert_ne by congruence.
        split; [exact Hs|]. apply before_snoc. auto.
  - split; [|split]; simpl.
    + intros t Ht. rewrite lookup_insert_ne; [auto|].
      intros <-. destruct (Hran _ Ht); congruence.
    + intros t. rewrite lookup_insert. case_decide; [discriminate|auto].
    + intros t u Ht Hu. destruct (Hdeps t u Ht Hu) as [Hs Hb].
      rewrite lookup_insert_ne by congruence. auto.
Qed.

Lemma run_inv_reachable d s r : reachable d s r → run_inv d r.
Proof.
  unfold reachable. revert r.
  apply (rtc_ind_r (run_inv d)); [apply run_inv_init|].
  intros r r' _ Hstep IH. by eapply run_inv_step.
Qed.

(** The function [schedule] only takes steps of the relation. *)
Lemma visit_step d r op :
  op ∈ tasks d → rtc (step d) r (visit d r op).
Proof.
  intros Hop. unfold visit.
  destruct (statuses r !! task_id op) eqn:Hst; [reflexivity|].
  unfold ready, blocked. repeat case_bool_decide; try reflexivity.
  - apply rtc_once. by apply step_execute.
  - apply rtc_once. apply step_skip; [done..|].
    match goal with H : set_Exists _ _ |- _ => destruct H as (u & Hu & Hf) end.
    exists u. auto.
Qed.

Lemma schedule_reachable d s : reachable d s (schedule d (init s)).
Proof.
  unfold reachable, schedule.
  assert (Hsub : ∀ op, op ∈ tasks d → op ∈ tasks d) by auto.
  revert Hsub. generalize (init s) as r. generalize (tasks d) at 1 3 as l.
  induction l as [|op l IH]; intros r Hsub; simpl; [reflexivity|].
  etrans; [apply visit_step, Hsub; left|].
  apply IH. intros op' Hop'. apply Hsub. by right.
Qed.

(** Retrying keeps what every attempt keeps, and a success of the retried
    task is a success of its last attempt. *)
Lemma run_with_retries_inv (P Q : World → Prop) (c : Task unit) :
  (∀ w, P w → P (c w).1) →
  (∀ w, P w → (c w).2 = inr tt → Q (c w).1) →
  ∀ n w, P w →
    P (run_with_retries n c w).1
    ∧ (status_of (run_with_retries n c w).2 = Success →
       Q (run_with_retries n c w).1).
Proof.
  intros HP HQ. induction n as [|n IH]; intros w Hw; simpl;
    pose proof (HP w Hw) as HP'; pose proof (HQ w Hw) as HQ';
    destruct (c w) as [w' [e|[]]]; simpl in *; auto.
  split; [exact HP'|discriminate].
Qed.

Variable to_datetime : string → option Timestamp.

(** The dependency maps of the declared DAG. *)
Lemma upstream_chain :
  upstream_task_ids (deps (dag to_datetime))
  = {[ "transform" := {[ "extract" ]};
       "load" := {[ "transform" ]};
       "validate" := {[ "load" ]} ]}.
Proof. vm_compute. reflexivity. Qed.

Lemma downstream_chain :
  downstream_task_ids (deps (dag to_datetime))
  = {[ "extract" := {[ "transform" ]};
       "transform" := {[ "load" ]};
       "load" := {[ "validate" ]} ]}.
Proof. vm_compute. reflexivity. Qed.

Lemma upstream_extract : upstream_of (deps (dag to_datetime)) "extract" = ∅.
Proof. vm_compute. reflexivity. Qed.
Lemma upstream_transform :
  upstream_of (deps (dag to_datetime)) "transform" = {[ "extract" ]}.
Proof. vm_compute. reflexivity. Qed.
Lemma upstream_load :
  upstream_of (deps (dag to_datetime)) "load" = {[ "transform" ]}.
Proof. vm_compute. reflexivity. Qed.
Lemma upstream_validate :
  upstream_of (deps (dag to_datetime)) "validate" = {[ "load" ]}.
Proof. vm_compute. reflexivity. Qed.

Ltac task_cases H :=
  simpl in H;
  repeat (apply elem_of_cons in H as [->|H]);
  [ | | | | by apply elem_of_nil in H ];
  unfold extract_task, transform_task, load_task, validate_task in *;
  cbn [python_callable task_id] in *.

(** No callable of the DAG removes an XCom row. *)
Lemma callable_keeps_xcom op w k :
  op ∈ tasks (dag to_datetime) →
  is_Some (xcom w !! k) →
  is_Some (xcom (python_callable op (task_id op) w).1 !! k).
Proof.
  intros Hop Hk. task_cases Hop.
  - destruct (extract_data_run "extract" w) as (_ & _ & Hx).
    unfold final in Hx. rewrite Hx. apply lookup_insert_is_Some'. auto.
  - destruct (raw_data (storage w)) as [rows|] eqn:Hraw.
    + destruct (to_datetime_series to_datetime (purchase_date <$> rows))
        as [e|dates] eqn:Hs.
      * destruct (transform_data_bad_date to_datetime "transform" w rows e Hraw Hs)
          as (_ & _ & Hx).
        unfold final in Hx. by rewrite Hx.
      * destruct (transform_data_ok to_datetime "transform" w rows dates Hraw Hs)
          as (_ & _ & Hx).
        unfold final in Hx. rewrite Hx. apply lookup_insert_is_Some'. auto.
    + destruct (transform_data_no_file to_datetime "transform" w Hraw)
        as (_ & _ & Hx).
      unfold final in Hx. by rewrite Hx.
  - destruct (transformed_data (storage w)) as [rows|] eqn:Hfile.
    + destruct (load_data_ok "load" w rows Hfile) as (_ & _ & Hx).
      unfold final in Hx. rewrite Hx. apply lookup_insert_is_Some'. auto.
    + destruct (load_data_no_file "load" w Hfile) as (_ & _ & Hx).
      unfold final in Hx. by rewrite Hx.
  - destruct (validate_pipeline_run "validate" w) as (_ & _ & Hx).
    unfold final in Hx. by rewrite Hx.
Qed.

(** A publisher that returns has pushed its count. *)
Lemma callable_publishes op w :
  op ∈ tasks (dag to_datetime) →
  (python_callable op (task_id op) w).2 = inr tt →
  let w' := (python_callable op (task_id op) w).1 in
  (task_id op = "extract" → is_Some (extracted_count w'))
  ∧ (task_id op = "transform" → is_Some (transformed_count w'))
  ∧ (task_id op = "load" → is_Some (loaded_count w')).
Proof.
  intros Hop Hok. task_cases Hop;
    (split; [|split]); try (intros ?; discriminate); intros _.
  - destruct (extract_data_run "extract" w) as (_ & _ & Hx).
    unfold final in Hx. unfold extracted_count. rewrite Hx, lookup_insert_eq. eauto.
  - destruct (raw_data (storage w)) as [rows|] eqn:Hraw.
    + destruct (transform_data_success to_datetime "transform" w rows Hraw Hok)
        as [dates Hs].
      destruct (transform_data_ok to_datetime "transform" w rows dates Hraw Hs)
        as (_ & _ & Hx).
      unfold final in Hx. unfold transformed_count.
      rewrite Hx, lookup_insert_eq. eauto.
    + destruct (transform_data_no_file to_datetime "transform" w Hraw) as [He _].
      unfold outcome in He. congruence.
  - destruct (load_data_with_success _ "load" w Hok)
      as (rows & db' & n & _ & _ & _ & _ & Hx).
    unfold final in Hx. unfold loaded_count.
    fold load_data in Hx. rewrite Hx, lookup_insert_eq. eauto.
Qed.

Lemma attempt_publishes op w :
  op ∈ tasks (dag to_datetime) →
  let run := attempt (dag to_datetime) op w in
  (∀ k, is_Some (xcom w !! k) → is_Some (xcom run.1 !! k))
  ∧ (status_of run.2 = Success →
     (task_id op = "extract" → is_Some (extracted_count run.1))
     ∧ (task_id op = "transform" → is_Some (transformed_count run.1))
     ∧ (task_id op = "load" → is_Some (loaded_count run.1))).
Proof.
  intros Hop. unfold attempt.
  apply (run_with_retries_inv
           (λ w', ∀ k, is_Some (xcom w !! k) → is_Some (xcom w' !! k))
           (λ w', (task_id op = "extract" → is_Some (extracted_count w'))
                  ∧ (task_id op = "transform" → is_Some (transformed_count w'))
                  ∧ (task_id op = "load" → is_Some (loaded_count w')))).
  - intros w' Hw' k Hk. by apply callable_keeps_xcom, Hw'.
  - intros w' _ Hok. by apply callable_publishes.
  - auto.
Qed.

Lemma published_inv_step r r' :
  published_inv r → step (dag to_datetime) r r' → published_inv r'.
Proof.
  intros (He & Ht & Hl) Hstep.
  destruct Hstep as [op r Hop Hnone Hall|op r Hop Hnone Hfail];
    unfold published_inv; simpl.
  - destruct (attempt_publishes op (world r) Hop) as [Hkeep Hpub].
    repeat split; (rewrite lookup_insert; case_decide as Heq;
      [ intros [= Hs]; by apply Hpub
      | intros Hs; apply Hkeep; auto ]).
  - repeat split; (rewrite lookup_insert; case_decide; [discriminate|auto]).
Qed.

Lemma published_inv_reachable s r :
  reachable (dag to_datetime) s r → published_inv r.
Proof.
  unfold reachable. revert r. apply (rtc_ind_r published_inv).
  - repeat split; simpl; rewrite lookup_empty; discriminate.
  - intros r r' _ Hstep IH. by eapply published_inv_step.
Qed.

(** *** The run step by step *)

Lemma visit_ready d r op :
  statuses r !! task_id op = None →
  all_succeeded (statuses r) (upstream_of (deps d) (task_id op)) →
  visit d r op = execute d op r.
Proof.
  intros Hst Hall. unfold visit, ready. rewrite Hst.
  by rewrite bool_decide_eq_true_2.
Qed.

Lemma visit_blocked d r op :
  statuses r !! task_id op = None →
  some_failed (statuses r) (upstream_of (deps d) (task_id op)) →
  visit d r op = skip op r.
Proof.
  intros Hst (u & Hu & Hf). unfold visit, ready, blocked. rewrite Hst.
  rewrite bool_decide_eq_false_2.
  - rewrite bool_decide_eq_true_2; [reflexivity|]. exists u. auto.
  - intros Hall. specialize (Hall u Hu). simpl in Hall.
    destruct Hf; congruence.
Qed.

Lemma run_with_retries_ok n (c : Task unit) w :
  (c w).2 = inr tt → run_with_retries n c w = c w.
Proof.
  intros Hok. destruct n; simpl; destruct (c w) as [w' [e|[]]];
    simpl in *; congruence.
Qed.

Lemma run_with_retries_fail (P : World → Prop) (c : Task unit) :
  (∀ w, P w → P (c w).1 ∧ ∃ e, (c w).2 = inl e) →
  ∀ n w, P w →
    P (run_with_retries n c w).1 ∧ status_of (run_with_retries n c w).2 = Failed.
Proof.
  intros Hc. induction n as [|n IH]; intros w Hw; simpl;
    destruct (Hc w Hw) as (HP & e & He);
    destruct (c w) as [w' [e'|u]]; simpl in *; try discriminate; auto.
Qed.

Lemma execute_extract r :
  statuses (execute (dag to_datetime) extract_task r)
  = <["extract" := Success]> (statuses r)
  ∧ storage (world (execute (dag to_datetime) extract_task r))
    = mkStorage true (Some sample_data)
                (transformed_data (storage (world r)))
                (database (storage (world r))).
Proof.
  destruct (extract_data_run "extract" (world r)) as (Hok & Hst & _).
  unfold execute, attempt. cbn [python_callable task_id extract_task].
  rewrite (run_with_retries_ok _ _ _ Hok).
  unfold outcome in Hok. unfold final in Hst. cbn [statuses world].
  by rewrite Hok, Hst.
Qed.

Lemma execute_transform_ok r rows dates :
  raw_data (storage (world r)) = Some rows →
  to_datetime_series to_datetime (purchase_date <$> rows) = inr dates →
  statuses (execute (dag to_datetime) (transform_task to_datetime) r)
  = <["transform" := Success]> (statuses r)
  ∧ storage (world (execute (dag to_datetime) (transform_task to_datetime) r))
    = mkStorage (data_dir (storage (world r))) (Some rows)
                (Some (zip_with derive rows dates))
                (database (storage (world r))).
Proof.
  intros Hraw Hs.
  destruct (transform_data_ok to_datetime "transform" (world r) rows dates Hraw Hs)
    as (Hok & Hst & _).
  unfold execute, attempt. cbn [python_callable task_id transform_task].
  rewrite (run_with_retries_ok _ _ _ Hok).
  unfold outcome in Hok. unfold final in Hst. cbn [statuses world].
  by rewrite Hok, Hst.
Qed.

Lemma execute_transform_bad r rows e :
  raw_data (storage (world r)) = Some rows →
  to_datetime_series to_datetime (purchase_date <$> rows) = inl e →
  statuses (execute (dag to_datetime) (transform_task to_datetime) r)
  = <["transform" := Failed]> (statuses r)
  ∧ storage (world (execute (dag to_datetime) (transform_task to_datetime) r))
    = storage (world r).
Proof.
  intros Hraw Hs.
  destruct (run_with_retries_fail
              (λ w, storage w = storage (world r))
              (transform_data to_datetime "transform")) with
    (n := retries (dag to_datetime)) (w := world r) as [Hst Hfail].
  - intros w Hw.
    assert (Hraw' : raw_data (storage w) = Some rows) by (by rewrite Hw).
    destruct (transform_data_bad_date to_datetime "transform" w rows e Hraw' Hs)
      as (Hout & Hsame & _).
    unfold outcome in Hout. unfold final in Hsame. split; [congruence|eauto].
  - reflexivity.
  - unfold execute, attempt. cbn [python_callable task_id transform_task].
    cbn [statuses world]. by rewrite Hfail, Hst.
Qed.

Lemma execute_load_ok r rows :
  transformed_data (storage (world r)) = Some rows →
  statuses (execute (dag to_datetime) load_task r)
  = <["load" := Success]> (statuses r)
  ∧ storage (world (execute (dag to_datetime) load_task r))
    = mkStorage (data_dir (storage (world r))) (raw_data (storage (world r)))
                (Some rows)
                (<["customer_purchases" := rows]> (database (storage (world r)))).
Proof.
  intros Hfile.
  destruct (load_data_ok "load" (world r) rows Hfile) as (Hok & Hst & _).
  unfold execute, attempt. cbn [python_callable task_id load_task].
  rewrite (run_with_retries_ok _ _ _ Hok).
  unfold outcome in Hok. unfold final in Hst. cbn [statuses world].
  by rewrite Hok, Hst.
Qed.

Lemma execute_validate r :
  storage (world (execute (dag to_datetime) validate_task r)) = storage (world r).
Proof.
  unfold execute, attempt. cbn [python_callable task_id validate_task world].
  apply (run_with_retries_inv (λ w, storage w = storage (world r)) (λ _, True));
    [|auto..].
  intros w Hw. destruct (validate_pipeline_run "validate" w) as (_ & Hst & _).
  unfold final in Hst. congruence.
Qed.

(** What a run leaves in the storage. *)
Lemma storage_after_run s :
  storage_after to_datetime s
  = match to_datetime_series to_datetime (purchase_date <$> sample_data) with
    | inr dates =>
        mkStorage true (Some sample_data)
                  (Some (zip_with derive sample_data dates))
                  (<["customer_purchases" := zip_with derive sample_data dates]>
                     (database s))
    | inl _ =>
        mkStorage true (Some sample_data) (transformed_data s) (database s)
    end.
Proof.
  unfold storage_after, run_pipeline, schedule.
  change (tasks (dag to_datetime))
    with [extract_task; transform_task to_datetime; load_task; validate_task].
  cbn [foldl].
  set (r0 := init s).
  rewrite (visit_ready _ r0 extract_task);
    [|reflexivity|cbn [task_id extract_task]; rewrite upstream_extract; intros u []%elem_of_empty].
  destruct (execute_extract r0) as [Hst1 Hs1].
  set (r1 := execute _ extract_task r0) in *.
  assert (Hraw : raw_data (storage (world r1)) = Some sample_data) by (by rewrite Hs1).
  rewrite (visit_ready _ r1 (transform_task to_datetime));
    [|by rewrite Hst1
     |cbn [task_id transform_task]; rewrite upstream_transform; intros u ->%elem_of_singleton;
      rewrite Hst1; apply lookup_insert_eq].
  destruct (to_datetime_series to_datetime (purchase_date <$> sample_data))
    as [e|dates] eqn:Hs.
  - destruct (execute_transform_bad r1 _ e Hraw Hs) as [Hst2 Hs2].
    set (r2 := execute _ (transform_task to_datetime) r1) in *.
    rewrite (visit_blocked _ r2 load_task);
      [|by rewrite Hst2, Hst1
       |exists "transform"; cbn [task_id load_task]; rewrite upstream_load, Hst2, lookup_insert_eq;
        split; [by apply elem_of_singleton|auto]].
    rewrite (visit_blocked _ (skip load_task r2) validate_task);
      [|cbn [skip statuses task_id load_task validate_task]; by rewrite Hst2, Hst1
       |exists "load"; cbn [task_id validate_task]; rewrite upstream_validate;
        cbn [skip statuses task_id load_task]; rewrite lookup_insert_eq;
        split; [by apply elem_of_singleton|auto]].
    cbn [skip world]. by rewrite Hs2, Hs1.
  - destruct (execute_transform_ok r1 _ dates Hraw Hs) as [Hst2 Hs2].
    set (r2 := execute _ (transform_task to_datetime) r1) in *.
    assert (Hfile : transformed_data (storage (world r2))
                    = Some (zip_with derive sample_data dates)) by (by rewrite Hs2).
    rewrite (visit_ready _ r2 load_task);
      [|by rewrite Hst2, Hst1
       |cbn [task_id load_task]; rewrite upstream_load; intros u ->%elem_of_singleton;
        rewrite Hst2; apply lookup_insert_eq].
    destruct (execute_load_ok r2 _ Hfile) as [Hst3 Hs3].
    set (r3 := execute _ load_task r2) in *.
    rewrite (visit_ready _ r3 validate_task);
      [|by rewrite Hst3, Hst2, Hst1
       |cbn [task_id validate_task]; rewrite upstream_validate; intros u ->%elem_of_singleton;
        rewrite Hst3; apply lookup_insert_eq].
    rewrite execute_validate, Hs3, Hs2, Hs1. reflexivity.
Qed.

End RunnerFacts.

(** C9: the declared dependencies are exactly the chain extract, transform,
    load, validate, each task having the previous one as its only upstream
    task. In every state of every run, a task that was executed has all its
    upstream tasks succeeded and executed earlier; so once validate was
    executed, extract, transform, load and validate were executed in this
    order, and whenever validate is eligible the three counts are in the XCom
    table. *)
Theorem dag_is_linear_chain to_datetime :
  upstream_task_ids (deps (dag to_datetime))
  = {[ "transform" := {[ "extract" ]};
       "load" := {[ "transform" ]};
       "validate" := {[ "load" ]} ]}
  ∧ downstream_task_ids (deps (dag to_datetime))
    = {[ "extract" := {[ "transform" ]};
         "transform" := {[ "load" ]};
         "load" := {[ "validate" ]} ]}
  ∧ task_id <$> tasks (dag to_datetime) = ["extract"; "transform"; "load"; "validate"]
  ∧ ∀ s r,
      Runner.reachable (dag to_datetime) s r →
      (∀ t u,
         t ∈ Runner.started r →
         u ∈ upstream_of (deps (dag to_datetime)) t →
         Runner.statuses r !! u = Some Runner.Success
         ∧ before u t (Runner.started r))
      ∧ ("validate" ∈ Runner.started r →
         before "extract" "transform" (Runner.started r)
         ∧ before "transform" "load" (Runner.started r)
         ∧ before "load" "validate" (Runner.started r))
      ∧ (Runner.all_succeeded (Runner.statuses r)
           (upstream_of (deps (dag to_datetime)) "validate") →
         is_Some (extracted_count (Runner.world r))
         ∧ is_Some (transformed_count (Runner.world r))
         ∧ is_Some (loaded_count (Runner.world r))).
Proof.
  split; [apply upstream_chain|]. split; [apply downstream_chain|].
  split; [reflexivity|]. intros s r Hr.
  destruct (run_inv_reachable _ _ _ Hr) as (Hran & Hsucc & Hdeps).
  destruct (published_inv_reachable _ _ _ Hr) as (Hpe & Hpt & Hpl).
  assert (Hload : Runner.statuses r !! "load" = Some Runner.Success →
                  Runner.statuses r !! "transform" = Some Runner.Success
                  ∧ before "transform" "load" (Runner.started r)).
  { intros Hs. apply Hdeps; [by apply Hsucc|].
    rewrite upstream_load. by apply elem_of_singleton. }
  assert (Htransform : Runner.statuses r !! "transform" = Some Runner.Success →
                       Runner.statuses r !! "extract" = Some Runner.Success
                       ∧ before "extract" "transform" (Runner.started r)).
  { intros Hs. apply Hdeps; [by apply Hsucc|].
    rewrite upstream_transform. by apply elem_of_singleton. }
  split; [exact Hdeps|]. split.
  - intros Hv.
    destruct (Hdeps "validate" "load" Hv) as [Hl Hbl].
    { rewrite upstream_validate. by apply elem_of_singleton. }
    destruct (Hload Hl) as [Ht Hbt]. destruct (Htransform Ht) as [He Hbe]. auto.
  - intros Hall.
    assert (Hl : Runner.statuses r !! "load" = Some Runner.Success).
    { apply Hall. rewrite upstream_validate. by apply elem_of_singleton. }
    destruct (Hload Hl) as [Ht _]. destruct (Htransform Ht) as [He _]. auto.
Qed.

Lemma dag_is_linear_chain_witness :
  Runner.started (run_pipeline parse_iso_date empty_storage)
  = ["extract"; "transform"; "load"; "validate"]
  ∧ before "extract" "transform" (Runner.started (run_pipeline parse_iso_date empty_storage))
  ∧ before "transform" "load" (Runner.started (run_pipeline parse_iso_date empty_storage))
  ∧ before "load" "validate" (Runner.started (run_pipeline parse_iso_date empty_storage)).
Proof.
  assert (Hrun : Runner.started (run_pipeline parse_iso_date empty_storage)
                 = ["extract"; "transform"; "load"; "validate"])
    by (vm_compute; reflexivity).
  split; [exact Hrun|].
  destruct (dag_is_linear_chain parse_iso_date) as (_ & _ & _ & Hall).
  destruct (Hall empty_storage (run_pipeline parse_iso_date empty_storage)
              (schedule_reachable _ _)) as (_ & Horder & _).
  apply Horder. rewrite Hrun. apply list_elem_of_lookup. exists 3%nat. reflexivity.
Defined.

(** C6: the pipeline is idempotent. The storage a second run leaves, started
    from the storage of a first run, is the storage of the first run, so the
    table [customer_purchases] holds the same rows; and each of extract,
    transform and load, run again from the world its first run left, leaves
    the same storage and the same XCom table. *)
Theorem pipeline_is_idempotent to_datetime :
  (∀ s, storage_after to_datetime (storage_after to_datetime s)
        = storage_after to_datetime s)
  ∧ (∀ ti w,
       storage (final (extract_data ti) (final (extract_data ti) w))
       = storage (final (extract_data ti) w)
       ∧ xcom (final (extract_data ti) (final (extract_data ti) w))
         = xcom (final (extract_data ti) w))
  ∧ (∀ ti w,
       storage (final (transform_data to_datetime ti)
                      (final (transform_data to_datetime ti) w))
       = storage (final (transform_data to_datetime ti) w)
       ∧ xcom (final (transform_data to_datetime ti)
                     (final (transform_data to_datetime ti) w))
         = xcom (final (transform_data to_datetime ti) w))
  ∧ (∀ ti w,
       storage (final (load_data ti) (final (load_data ti) w))
       = storage (final (load_data ti) w)
       ∧ xcom (final (load_data ti) (final (load_data ti) w))
         = xcom (final (load_data ti) w)).
Proof.
  split; [|split; [|split]].
  - intros s. rewrite !storage_after_run.
    destruct (to_datetime_series to_datetime (purchase_date <$> sample_data));
      simpl; [reflexivity|]. by rewrite insert_insert_eq.
  - intros ti w.
    destruct (extract_data_run ti w) as (_ & Hs1 & Hx1).
    destruct (extract_data_run ti (final (extract_data ti) w)) as (_ & Hs2 & Hx2).
    rewrite Hs2, Hx2, Hs1, Hx1. simpl. by rewrite insert_insert_eq.
  - intros ti w. destruct (raw_data (storage w)) as [rows|] eqn:Hraw.
    + destruct (to_datetime_series to_datetime (purchase_date <$> rows))
        as [e|dates] eqn:Hs.
      * destruct (transform_data_bad_date to_datetime ti w rows e Hraw Hs)
          as (_ & Hs1 & Hx1).
        assert (Hraw' : raw_data (storage (final (transform_data to_datetime ti) w))
                        = Some rows) by (by rewrite Hs1).
        destruct (transform_data_bad_date to_datetime ti _ rows e Hraw' Hs)
          as (_ & Hs2 & Hx2).
        auto.
      * destruct (transform_data_ok to_datetime ti w rows dates Hraw Hs)
          as (_ & Hs1 & Hx1).
        assert (Hraw' : raw_data (storage (final (transform_data to_datetime ti) w))
                        = Some rows) by (by rewrite Hs1).
        destruct (transform_data_ok to_datetime ti _ rows dates Hraw' Hs)
          as (_ & Hs2 & Hx2).
        rewrite Hs2, Hx2, Hs1, Hx1. simpl. by rewrite insert_insert_eq.
    + destruct (transform_data_no_file to_datetime ti w Hraw) as (_ & Hs1 & Hx1).
      assert (Hraw' : raw_data (storage (final (transform_data to_datetime ti) w))
                      = None) by (by rewrite Hs1).
      destruct (transform_data_no_file to_datetime ti _ Hraw') as (_ & Hs2 & Hx2).
      auto.
  - intros ti w. destruct (transformed_data (storage w)) as [rows|] eqn:Hfile.
    + destruct (load_data_ok ti w rows Hfile) as (_ & Hs1 & Hx1).
      assert (Hfile' : transformed_data (storage (final (load_data ti) w))
                       = Some rows) by (by rewrite Hs1).
      destruct (load_data_ok ti _ rows Hfile') as (_ & Hs2 & Hx2).
      rewrite Hs2, Hx2, Hs1, Hx1. simpl. by rewrite !insert_insert_eq.
    + destruct (load_data_no_file ti w Hfile) as (_ & Hs1 & Hx1).
      assert (Hfile' : transformed_data (storage (final (load_data ti) w)) = None)
        by (by rewrite Hs1).
      destruct (load_data_no_file ti _ Hfile') as (_ & Hs2 & Hx2).
      auto.
Qed.

(** The end-to-end scenario: from an empty storage all four tasks succeed,
    the three counts are 5, and a second run leaves the same five rows in the
    table. *)
Example end_to_end :
  (λ t, Runner.statuses (run_pipeline parse_iso_date empty_storage) !! t)
    <$> ["extract"; "transform"; "load"; "validate"]
  = [Some Runner.Success; Some Runner.Success; Some Runner.Success;
     Some Runner.Success]
  ∧ extracted_count (Runner.world (run_pipeline parse_iso_date empty_storage)) = Some 5%Z
  ∧ transformed_count (Runner.world (run_pipeline parse_iso_date empty_storage)) = Some 5%Z
  ∧ loaded_count (Runner.world (run_pipeline parse_iso_date empty_storage)) = Some 5%Z
  ∧ purchase_category
      <$> default [] (database (storage_after parse_iso_date empty_storage)
                        !! "customer_purchases")
    = ["Medium"; "Medium"; "Low"; "High"; "Medium"]
  ∧ database (storage_after parse_iso_date
                (storage_after parse_iso_date empty_storage)) !! "customer_purchases"
    = database (storage_after parse_iso_date empty_storage) !! "customer_purchases".
Proof.
  repeat split; vm_compute; reflexivity.
Qed.

(** ** Further properties *)

Section FloatTransitivity.

Import SpecFloat.

Lemma SFltb_leb_trans a b c :
  SFltb a b = true → SFleb b c = true → SFltb a c = true.
Proof.
  unfold SFltb, SFleb.
  destruct a as [sa|sa| |sa ma ea], b as [sb|sb| |sb mb eb],
           c as [sc|sc| |sc mc ec];
    cbn [SFcompare];
    repeat match goal with s : bool |- _ => destruct s end;
    try (intros; reflexivity); try (intros; discriminate);
    change (Pos.compare_cont Eq) with Pos.compare;
    destruct (Z.compare_spec ea eb), (Z.compare_spec eb ec), (Z.compare_spec ea ec);
    try lia; try (intros; reflexivity); try (intros; discriminate); subst;
    destruct (Pos.compare_spec ma mb), (Pos.compare_spec mb mc),
             (Pos.compare_spec ma mc);
    simpl; try lia; try (intros; reflexivity); try (intros; discriminate).
Qed.

Lemma ltb_leb_trans c x y :
  (c <? x)%float = true → (x <=? y)%float = true → (c <? y)%float = true.
Proof.
  rewrite !FloatAxioms.ltb_spec, FloatAxioms.leb_spec. apply SFltb_leb_trans.
Qed.

End FloatTransitivity.

(** *** Sequencing *)

Lemma bind_ok {A} (m : Task unit) (k : Task A) w :
  outcome m w = inr tt → (m;; k) w = k (final m w).
Proof.
  unfold outcome, final, mbind, task_bind.
  destruct (m w) as [w' [e|[]]]; simpl; [discriminate|reflexivity].
Qed.

Lemma bind_fail {A} (m : Task unit) (k : Task A) w e :
  outcome m w = inl e → (m;; k) w = (final m w, inl e).
Proof.
  unfold outcome, final, mbind, task_bind.
  destruct (m w) as [w' [e'|u]]; simpl; congruence.
Qed.

(** *** What each task leaves alone *)

(** X1: [extract_data] creates the data directory and, besides the raw file,
    changes no file and no table; in the XCom table it changes only the row
    [extracted_records] of its own task instance. *)
Theorem extract_touches_only_its_outputs ti w :
  data_dir (storage (final (extract_data ti) w)) = true
  ∧ transformed_data (storage (final (extract_data ti) w))
    = transformed_data (storage w)
  ∧ database (storage (final (extract_data ti) w)) = database (storage w)
  ∧ ∀ k, k ≠ (ti, "extracted_records") →
         xcom (final (extract_data ti) w) !! k = xcom w !! k.
Proof.
  destruct (extract_data_run ti w) as (_ & Hst & Hx). rewrite Hst, Hx.
  repeat split. intros k Hk. by rewrite lookup_insert_ne.
Qed.

(** X2: without a raw file [transform_data] raises [FileNotFoundError] for
    the raw-data path right after its first log line; the storage and the
    XCom table are as before. *)
Theorem transform_without_raw_file to_datetime ti w :
  raw_data (storage w) = None →
  outcome (transform_data to_datetime ti) w
  = inl (FileNotFoundError "/tmp/airflow_data/raw_data.csv")
  ∧ storage (final (transform_data to_datetime ti) w) = storage w
  ∧ xcom (final (transform_data to_datetime ti) w) = xcom w
  ∧ stdout (final (transform_data to_datetime ti) w)
    = (stdout w ++ ["Starting data transformation..."])%list.
Proof.
  intros Hraw.
  destruct (transform_data_no_file to_datetime ti w Hraw) as (Hout & Hst & Hx).
  split; [exact Hout|]. split; [exact Hst|]. split; [exact Hx|].
  run_task. by rewrite Hraw.
Qed.

Lemma transform_without_raw_file_witness :
  outcome (transform_data parse_iso_date "transform") no_files_world
  = inl (FileNotFoundError "/tmp/airflow_data/raw_data.csv")
  ∧ xcom (final (transform_data parse_iso_date "transform") no_files_world)
    !! ("transform", "transformed_records") = None.
Proof.
  destruct (transform_without_raw_file parse_iso_date "transform" no_files_world
              eq_refl) as (Hout & _ & Hx & _).
  split; [exact Hout|]. rewrite Hx. reflexivity.
Defined.

(** X3: whether it succeeds or raises, [transform_data] never changes the raw
    file, the data directory or the database, and in the XCom table it changes
    at most the row [transformed_records] of its own task instance. *)
Theorem transform_touches_only_its_outputs to_datetime ti w :
  raw_data (storage (final (transform_data to_datetime ti) w)) = raw_data (storage w)
  ∧ data_dir (storage (final (transform_data to_datetime ti) w))
    = data_dir (storage w)
  ∧ database (storage (final (transform_data to_datetime ti) w))
    = database (storage w)
  ∧ ∀ k, k ≠ (ti, "transformed_records") →
         xcom (final (transform_data to_datetime ti) w) !! k = xcom w !! k.
Proof.
  destruct (raw_data (storage w)) as [rows|] eqn:Hraw.
  - destruct (to_datetime_series to_datetime (purchase_date <$> rows))
      as [e|dates] eqn:Hs.
    + destruct (transform_data_bad_date to_datetime ti w rows e Hraw Hs)
        as (_ & Hst & Hx).
      rewrite Hst, Hx, Hraw. auto.
    + destruct (transform_data_ok to_datetime ti w rows dates Hraw Hs)
        as (_ & Hst & Hx).
      rewrite Hst, Hx. repeat split. intros k Hk. by rewrite lookup_insert_ne.
  - destruct (transform_data_no_file to_datetime ti w Hraw) as (_ & Hst & Hx).
    rewrite Hst, Hx, Hraw. auto.
Qed.



(** X5: on a raw file without rows [transform_data] succeeds whatever the
    date parser does: it writes a transformed file without rows and publishes
    the count 0. *)
Theorem transform_of_empty_file to_datetime ti w :
  raw_data (storage w) = Some [] →
  outcome (transform_data to_datetime ti) w = inr tt
  ∧ transformed_data (storage (final (transform_data to_datetime ti) w)) = Some []
  ∧ xcom (final (transform_data to_datetime ti) w) !! (ti, "transformed_records")
    = Some 0%Z.
Proof.
  intros Hraw.
  destruct (transform_data_ok to_datetime ti w [] [] Hraw eq_refl)
    as (Hok & Hst & Hx).
  rewrite Hok, Hst, Hx, lookup_insert_eq. auto.
Qed.

Lemma transform_of_empty_file_witness :
  outcome (transform_data (λ _, None) "transform") empty_frames_world = inr tt
  ∧ xcom (final (transform_data (λ _, None) "transform") empty_frames_world)
    !! ("transform", "transformed_records") = Some 0%Z.
Proof.
  destruct (transform_of_empty_file (λ _, None) "transform" empty_frames_world
              eq_refl) as (Hok & _ & Hx).
  auto.
Defined.

(** X6: without a transformed file [load_data] raises [FileNotFoundError] for
    the transformed-data path before it touches the database: the tables and
    the XCom table are as before. *)
Theorem load_without_transformed_file ti w :
  transformed_data (storage w) = None →
  outcome (load_data ti) w
  = inl (FileNotFoundError "/tmp/airflow_data/transformed_data.csv")
  ∧ storage (final (load_data ti) w) = storage w
  ∧ xcom (final (load_data ti) w) = xcom w.
Proof. apply load_data_no_file. Qed.

Lemma load_without_transformed_file_witness :
  outcome (load_data "load") no_files_world
  = inl (FileNotFoundError "/tmp/airflow_data/transformed_data.csv")
  ∧ database (storage (final (load_data "load") no_files_world))
    !! "customer_purchases" = Some stale_rows.
Proof.
  destruct (load_without_transformed_file "load" no_files_world eq_refl)
    as (Hout & Hst & _).
  split; [exact Hout|]. rewrite Hst. reflexivity.
Defined.

(** X7: whether it succeeds or raises, [load_data] never changes the two CSV
    files or the data directory, leaves every table other than
    [customer_purchases] as it was, and in the XCom table changes at most the
    row [loaded_records] of its own task instance. *)
Theorem load_touches_only_its_outputs ti w :
  raw_data (storage (final (load_data ti) w)) = raw_data (storage w)
  ∧ transformed_data (storage (final (load_data ti) w))
    = transformed_data (storage w)
  ∧ data_dir (storage (final (load_data ti) w)) = data_dir (storage w)
  ∧ (∀ table, table ≠ "customer_purchases" →
              database (storage (final (load_data ti) w)) !! table
              = database (storage w) !! table)
  ∧ ∀ k, k ≠ (ti, "loaded_records") →
         xcom (final (load_data ti) w) !! k = xcom w !! k.
Proof.
  destruct (transformed_data (storage w)) as [rows|] eqn:Hfile.
  - destruct (load_data_ok ti w rows Hfile) as (_ & Hst & Hx).
    rewrite Hst, Hx. simpl. repeat split.
    + intros table Ht. by rewrite lookup_insert_ne.
    + intros k Hk. by rewrite lookup_insert_ne.
  - destruct (load_data_no_file ti w Hfile) as (_ & Hst & Hx).
    rewrite Hst, Hx, Hfile. auto.
Qed.

(** X8: the count [load_data] publishes is the number of rows of the
    transformed file. In particular a transformed file without rows empties
    the table: the rows it held are gone and the count is 0. *)
Theorem load_publishes_row_count ti w rows :
  transformed_data (storage w) = Some rows →
  xcom (final (load_data ti) w) !! (ti, "loaded_records")
  = Some (Z.of_nat (length rows))
  ∧ (rows = [] →
     database (storage (final (load_data ti) w)) !! "customer_purchases" = Some []
     ∧ xcom (final (load_data ti) w) !! (ti, "loaded_records") = Some 0%Z).
Proof.
  intros Hfile. destruct (load_data_ok ti w rows Hfile) as (_ & Hst & Hx).
  rewrite Hst, Hx, lookup_insert_eq. simpl. split; [reflexivity|].
  intros ->. rewrite lookup_insert_eq. auto.
Qed.

Lemma load_publishes_row_count_witness :
  database (storage empty_frames_world) !! "customer_purchases" = Some stale_rows
  ∧ database (storage (final (load_data "load") empty_frames_world))
    !! "customer_purchases" = Some []
  ∧ xcom (final (load_data "load") empty_frames_world) !! ("load", "loaded_records")
    = Some 0%Z.
Proof.
  split; [reflexivity|].
  exact (proj2 (load_publishes_row_count "load" empty_frames_world [] eq_refl)
               eq_refl).
Defined.

(** X9: [validate_pipeline] only reads. It leaves the storage and the XCom
    table as they were whether it succeeds or raises, and its outcome depends
    on nothing but the three pulled counts: not on its own task id, not on the
    storage, not on other XCom rows. *)
Theorem validate_only_reads ti w :
  storage (final (validate_pipeline ti) w) = storage w
  ∧ xcom (final (validate_pipeline ti) w) = xcom w
  ∧ ∀ ti' w',
      extracted_count w' = extracted_count w →
      transformed_count w' = transformed_count w →
      loaded_count w' = loaded_count w →
      outcome (validate_pipeline ti') w' = outcome (validate_pipeline ti) w.
Proof.
  destruct (validate_pipeline_run ti w) as (Hout & Hst & Hx).
  split; [exact Hst|]. split; [exact Hx|].
  intros ti' w' He Ht Hl.
  destruct (validate_pipeline_run ti' w') as (Hout' & _ & _).
  by rewrite Hout, Hout', He, Ht, Hl.
Qed.

Lemma validate_only_reads_witness :
  outcome (validate_pipeline "check") (counts_world 5 5 5)
  = outcome (validate_pipeline "validate")
            (mkWorld (storage transformed_world)
                     (<[("audit", "note") := 7%Z]> (xcom (counts_world 5 5 5))) []).
Proof.
  apply (proj2 (proj2 (validate_only_reads "validate"
                         (mkWorld (storage transformed_world)
                                  (<[("audit", "note") := 7%Z]>
                                     (xcom (counts_world 5 5 5))) [])))
               "check" (counts_world 5 5 5));
    reflexivity.
Defined.

(** *** The four callables in sequence *)

Section Chain.

Variable to_datetime : string → option Timestamp.
Variables extract_id transform_id load_id validate_id : string.

Let chain : Task unit :=
  etl_chain to_datetime extract_id transform_id load_id validate_id.

(** The world after the three publishers, when the sample dates parse. *)
Lemma etl_chain_ok w dates :
  to_datetime_series to_datetime (purchase_date <$> sample_data) = inr dates →
  ∃ w3,
    chain w = validate_pipeline validate_id w3
    ∧ storage w3
      = mkStorage true (Some sample_data) (Some (zip_with derive sample_data dates))
                  (<["customer_purchases" := zip_with derive sample_data dates]>
                     (database (storage w)))
    ∧ xcom w3
      = <[(load_id, "loaded_records") := 5%Z]>
          (<[(transform_id, "transformed_records") := 5%Z]>
             (<[(extract_id, "extracted_records") := 5%Z]> (xcom w)))
    ∧ length (zip_with derive sample_data dates) = 5%nat.
Proof.
  intros Hs. unfold chain, etl_chain.
  destruct (extract_data_run extract_id w) as (Hok1 & Hst1 & Hx1).
  rewrite (bind_ok _ _ _ Hok1). set (w1 := final (extract_data extract_id) w) in *.
  assert (Hraw : raw_data (storage w1) = Some sample_data) by (by rewrite Hst1).
  destruct (transform_data_ok to_datetime transform_id w1 _ dates Hraw Hs)
    as (Hok2 & Hst2 & Hx2).
  rewrite (bind_ok _ _ _ Hok2).
  set (w2 := final (transform_data to_datetime transform_id) w1) in *.
  assert (Hfile : transformed_data (storage w2)
                  = Some (zip_with derive sample_data dates)) by (by rewrite Hst2).
  destruct (load_data_ok load_id w2 _ Hfile) as (Hok3 & Hst3 & Hx3).
  rewrite (bind_ok _ _ _ Hok3). set (w3 := final (load_data load_id) w2) in *.
  assert (Hlen : length (zip_with derive sample_data dates) = 5%nat).
  { apply series_inr, Forall2_length in Hs.
    rewrite length_zip_with, <- Hs. reflexivity. }
  exists w3. split; [reflexivity|].
  rewrite Hst3, Hx3, Hst2, Hx2, Hst1, Hx1, Hlen. simpl. auto.
Qed.

(** The chain stops at transform when a sample date does not parse. *)
Lemma etl_chain_bad_date w e :
  to_datetime_series to_datetime (purchase_date <$> sample_data) = inl e →
  outcome chain w = inl e
  ∧ transformed_data (storage (final chain w)) = transformed_data (storage w)
  ∧ database (storage (final chain w)) = database (storage w).
Proof.
  intros Hs. unfold chain, etl_chain.
  destruct (extract_data_run extract_id w) as (Hok1 & Hst1 & Hx1).
  unfold outcome at 1, final at 1 2. rewrite (bind_ok _ _ _ Hok1).
  set (w1 := final (extract_data extract_id) w) in *.
  assert (Hraw : raw_data (storage w1) = Some sample_data) by (by rewrite Hst1).
  destruct (transform_data_bad_date to_datetime transform_id w1 _ e Hraw Hs)
    as (Hout2 & Hst2 & _).
  rewrite (bind_fail _ _ _ _ Hout2). simpl. by rewrite Hst2, Hst1.
Qed.

End Chain.

(** X10: run one after the other under the task ids of the DAG, the four
    callables validate from every starting world, whatever files, tables and
    XCom rows it holds, provided the dates of the sample rows parse: the three
    counts are 5 and the table holds the five rows of the transformed file.
    When a sample date does not parse, the sequence raises that parse error
    and leaves the transformed file and the database as they were. *)
Theorem full_chain_validates to_datetime w :
  (Forall (λ r, is_Some (to_datetime (purchase_date r))) sample_data →
   outcome (etl_chain to_datetime "extract" "transform" "load" "validate") w = inr tt
   ∧ extracted_count
       (final (etl_chain to_datetime "extract" "transform" "load" "validate") w)
     = Some 5%Z
   ∧ transformed_count
       (final (etl_chain to_datetime "extract" "transform" "load" "validate") w)
     = Some 5%Z
   ∧ loaded_count
       (final (etl_chain to_datetime "extract" "transform" "load" "validate") w)
     = Some 5%Z
   ∧ ∃ out,
       database
         (storage (final (etl_chain to_datetime "extract" "transform" "load"
                                    "validate") w))
       !! "customer_purchases" = Some out
       ∧ transformed_data
           (storage (final (etl_chain to_datetime "extract" "transform" "load"
                                      "validate") w))
         = Some out
       ∧ length out = 5%nat)
  ∧ (∀ r, r ∈ sample_data → to_datetime (purchase_date r) = None →
          (∃ c, outcome (etl_chain to_datetime "extract" "transform" "load"
                                   "validate") w
                = inl (DateParseError c))
          ∧ transformed_data
              (storage (final (etl_chain to_datetime "extract" "transform" "load"
                                         "validate") w))
            = transformed_data (storage w)
          ∧ database
              (storage (final (etl_chain to_datetime "extract" "transform" "load"
                                         "validate") w))
            = database (storage w)).
Proof.
  split.
  - intros Hall. destruct (series_total to_datetime _ Hall) as [dates Hs].
    destruct (etl_chain_ok to_datetime "extract" "transform" "load" "validate"
                w dates Hs) as (w3 & Hrun & Hst & Hx & Hlen).
    destruct (validate_pipeline_run "validate" w3) as (Hout & Hst' & Hx').
    unfold outcome, final in *. rewrite Hrun.
    assert (He : extracted_count w3 = Some 5%Z).
    { unfold extracted_count. rewrite Hx.
      rewrite !lookup_insert_ne by done. apply lookup_insert_eq. }
    assert (Ht : transformed_count w3 = Some 5%Z).
    { unfold transformed_count. rewrite Hx.
      rewrite lookup_insert_ne by done. apply lookup_insert_eq. }
    assert (Hl : loaded_count w3 = Some 5%Z).
    { unfold loaded_count. rewrite Hx. apply lookup_insert_eq. }
    rewrite He, Ht, Hl in Hout. simpl in Hout.
    split; [exact Hout|].
    unfold extracted_count, transformed_count, loaded_count in *.
    rewrite Hx', Hst', He, Ht, Hl, Hst. simpl. repeat split.
    eexists. rewrite lookup_insert_eq. eauto.
  - intros r Hin Hr. destruct (series_inl to_datetime _ r Hin Hr) as (c & Hs & _).
    destruct (etl_chain_bad_date to_datetime "extract" "transform" "load" "validate"
                w _ Hs) as (Hout & Hfile & Hdb).
    eauto.
Qed.

Lemma full_chain_validates_witness :
  outcome (etl_chain parse_iso_date "extract" "transform" "load" "validate")
          stale_world = inr tt
  ∧ (∃ c, outcome (etl_chain (λ _, None) "extract" "transform" "load" "validate")
                  stale_world = inl (DateParseError c))
  ∧ database
      (storage (final (etl_chain (λ _, None) "extract" "transform" "load" "validate")
                      stale_world))
    !! "customer_purchases" = Some stale_rows.
Proof.
  destruct (full_chain_validates parse_iso_date stale_world) as [Hok _].
  destruct (full_chain_validates (λ _, None) stale_world) as [_ Hbad].
  split.
  - apply Hok. repeat constructor; eexists; vm_compute; reflexivity.
  - destruct (Hbad (mkRaw 1 "John Doe" 150.50 "2024-01-01" "North"))
      as (Hout & _ & Hdb); [by left|reflexivity|].
    split; [exact Hout|]. rewrite Hdb. reflexivity.
Defined.

(** X11: validate looks the counts up under the task ids "extract",
    "transform" and "load". Started with an empty XCom table and with dates
    that parse, the sequence of the four callables validates iff the three
    publishers ran under exactly these ids, or under none of them (then every
    pulled value is [None]); with some but not all of the ids changed it
    raises. *)
Theorem chain_validates_iff_task_ids to_datetime e t l v w :
  xcom w = ∅ →
  Forall (λ r, is_Some (to_datetime (purchase_date r))) sample_data →
  outcome (etl_chain to_datetime e t l v) w = inr tt
  ↔ (e = "extract" ∧ t = "transform" ∧ l = "load")
    ∨ (e ≠ "extract" ∧ t ≠ "transform" ∧ l ≠ "load").
Proof.
  intros Hempty Hall. destruct (series_total to_datetime _ Hall) as [dates Hs].
  destruct (etl_chain_ok to_datetime e t l v w dates Hs)
    as (w3 & Hrun & _ & Hx & _).
  destruct (validate_pipeline_run v w3) as (Hout & _ & _).
  unfold outcome in *. rewrite Hrun, Hout. clear Hrun Hout.
  assert (He : extracted_count w3 = if decide (e = "extract") then Some 5%Z else None).
  { unfold extracted_count. rewrite Hx, Hempty.
    rewrite !lookup_insert_ne by (intros [= _ ?]; discriminate).
    destruct (decide (e = "extract")) as [->|Hne].
    - apply lookup_insert_eq.
    - rewrite lookup_insert_ne by congruence. apply lookup_empty. }
  assert (Ht : transformed_count w3
               = if decide (t = "transform") then Some 5%Z else None).
  { unfold transformed_count. rewrite Hx, Hempty.
    rewrite lookup_insert_ne by (intros [= _ ?]; discriminate).
    destruct (decide (t = "transform")) as [->|Hne].
    - apply lookup_insert_eq.
    - rewrite lookup_insert_ne by congruence.
      rewrite lookup_insert_ne by (intros [= _ ?]; discriminate).
      apply lookup_empty. }
  assert (Hl : loaded_count w3 = if decide (l = "load") then Some 5%Z else None).
  { unfold loaded_count. rewrite Hx, Hempty.
    destruct (decide (l = "load")) as [->|Hne].
    - apply lookup_insert_eq.
    - rewrite lookup_insert_ne by congruence.
      rewrite !lookup_insert_ne by (intros [= _ ?]; discriminate).
      apply lookup_empty. }
  rewrite He, Ht, Hl.
  destruct (decide (e = "extract")), (decide (t = "transform")), (decide (l = "load"));
    simpl; split; intros H; try reflexivity; try discriminate; try tauto;
    destruct H as [(? & ? & ?)|(? & ? & ?)]; congruence.
Qed.

Lemma chain_validates_iff_task_ids_witness :
  outcome (etl_chain parse_iso_date "extract" "transform" "load" "validate")
          empty_world = inr tt
  ∧ outcome (etl_chain parse_iso_date "pull" "clean" "store" "validate")
            empty_world = inr tt
  ∧ outcome (etl_chain parse_iso_date "pull" "transform" "load" "validate")
            empty_world ≠ inr tt.
Proof.
  assert (Hall : Forall (λ r, is_Some (parse_iso_date (purchase_date r))) sample_data)
    by (repeat constructor; eexists; vm_compute; reflexivity).
  split; [|split].
  - apply (chain_validates_iff_task_ids parse_iso_date _ _ _ _ empty_world
             eq_refl Hall). left. auto.
  - apply (chain_validates_iff_task_ids parse_iso_date _ _ _ _ empty_world
             eq_refl Hall). right. repeat split; discriminate.
  - intros H.
    apply (chain_validates_iff_task_ids parse_iso_date _ _ _ _ empty_world
             eq_refl Hall) in H.
    destruct H as [(H & _)|(_ & H & _)]; [discriminate H|by apply H].
Defined.

(** *** Categories *)

(** X12: the category grows with the amount. When [x <= y] (so neither is
    NaN), a "High" [x] makes [y] "High" and a "Low" [y] makes [x] "Low": a
    larger purchase never gets a lower category. *)
Theorem categorize_monotone x y :
  (x <=? y)%float = true →
  (categorize x = "High" → categorize y = "High")
  ∧ (categorize y = "Low" → categorize x = "Low").
Proof.
  intros Hxy.
  pose proof (λ c H, ltb_leb_trans c x y H Hxy) as Htrans.
  unfold categorize. split.
  - destruct (200 <? x)%float eqn:H200.
    + by rewrite (Htrans 200%float H200).
    + destruct (100 <? x)%float; discriminate.
  - destruct (200 <? x)%float eqn:H200; [by rewrite (Htrans 200%float H200)|].
    destruct (100 <? x)%float eqn:H100; [|reflexivity].
    rewrite (Htrans 100%float H100). destruct (200 <? y)%float; discriminate.
Qed.

Lemma categorize_monotone_witness :
  (categorize 200.01 = "High" → categorize 300.75 = "High")
  ∧ (categorize 100.00 = "Low" → categorize 75.25 = "Low").
Proof.
  split.
  - apply (categorize_monotone 200.01 300.75). reflexivity.
  - apply (categorize_monotone 75.25 100.00). reflexivity.
Defined.

(** *** Missing amounts *)

Section FloatNaN.

Import SpecFloat.

Lemma is_nan_Prim2SF x : is_nan x = true → Prim2SF x = S754_nan.
Proof.
  unfold is_nan. rewrite FloatAxioms.eqb_spec. unfold SFeqb.
  destruct (Prim2SF x) as [s|s| |s m e]; cbn [SFcompare]; try reflexivity;
    try (destruct s; discriminate).
  rewrite Z.compare_refl, Pos.compare_cont_refl. destruct s; discriminate.
Qed.

Lemma Prim2SF_is_nan x : Prim2SF x = S754_nan → is_nan x = true.
Proof.
  intros Hx. unfold is_nan. rewrite FloatAxioms.eqb_spec, Hx. reflexivity.
Qed.

Lemma mul_nan_l x c : is_nan x = true → is_nan (x * c)%float = true.
Proof.
  intros Hx%is_nan_Prim2SF. apply Prim2SF_is_nan.
  rewrite FloatAxioms.mul_spec, Hx. reflexivity.
Qed.

Lemma add_nan_l x t : is_nan x = true → is_nan (x + t)%float = true.
Proof.
  intros Hx%is_nan_Prim2SF. apply Prim2SF_is_nan.
  rewrite FloatAxioms.add_spec, Hx. reflexivity.
Qed.

End FloatNaN.

(** X13: a row without an amount is neither dropped nor rejected. Whenever
    [transform_data] succeeds, each input row whose [purchase_amount] is NaN
    has its derived row at the same position, with a NaN [tax_amount], a NaN
    [total_amount] and the category "Low". *)
Theorem transform_keeps_rows_without_amount to_datetime ti w rows :
  raw_data (storage w) = Some rows →
  outcome (transform_data to_datetime ti) w = inr tt →
  ∃ out,
    transformed_data (storage (final (transform_data to_datetime ti) w)) = Some out
    ∧ Forall2 (λ r o,
                 is_nan (purchase_amount r) = true →
                 d_customer_id o = customer_id r
                 ∧ is_nan (tax_amount o) = true
                 ∧ is_nan (total_amount o) = true
                 ∧ purchase_category o = "Low")
              rows out.
Proof.
  intros Hraw Hok.
  destruct (transform_data_success to_datetime ti w rows Hraw Hok) as [dates Hs].
  destruct (transform_data_ok to_datetime ti w rows dates Hraw Hs) as (_ & Hst & _).
  exists (zip_with derive rows dates). rewrite Hst. split; [reflexivity|].
  eapply Forall2_impl;
    [exact (derive_rows to_datetime rows dates (series_inr _ _ _ Hs))|].
  intros r o (d & _ & ->) Hnan. simpl.
  split; [reflexivity|]. split; [by apply mul_nan_l|]. split; [by apply add_nan_l|].
  unfold categorize. by rewrite !ltb_nan_r.
Qed.

Lemma transform_keeps_rows_without_amount_witness :
  ∃ out,
    transformed_data
      (storage (final (transform_data parse_iso_date "transform") nan_world))
    = Some out
    ∧ d_customer_id <$> out = [1; 2]%Z
    ∧ purchase_category <$> out = ["Medium"; "Low"].
Proof.
  destruct (transform_keeps_rows_without_amount parse_iso_date "transform"
              nan_world nan_rows eq_refl eq_refl) as (out & Hfile & _).
  exists out. split; [exact Hfile|].
  assert (Hout : transformed_data
                   (storage (final (transform_data parse_iso_date "transform")
                                   nan_world))
                 = Some (zip_with derive nan_rows [mkTs 2024 1 1; mkTs 2024 1 2]))
    by (vm_compute; reflexivity).
  rewrite Hout in Hfile. injection Hfile as <-. repeat split.
Defined.
